(** * lc3rs: the VM core of [src/vm.rs], embedded in Rocq

    The VM state is threaded explicitly through a small state/error monad:
    an LC3Result returned from a [&mut self] method leaves the VM in whatever
    state it had reached when the error was raised (no rollback), so a
    computation returns the final state together with its result. *)

From Stdlib Require Import String ZArith List Bool Lia.
From Stdlib Require Strings.Byte.
Import ListNotations.
Open Scope Z_scope.

(** ** Errors *)

(** Modelled from the spec: the [crate::error] module is not in src.
    The variants are the ones vm.rs constructs ([ProgramSize],
    [Internal]) and the failure classes of the spec's section 7; a Rust
    panic (an array index out of bounds) is modelled as [Panic]. *)
Inductive LC3Error : Type :=
| ProgramSize (len max_len : Z)
| Internal (msg : string)
| IOFailure (code : Z)
| PluginFailure (code : Z)
| UnimplementedOpcode (code : Z)
| UnknownTrapVector (code : Z)
| Panic (msg : string).

Inductive result (A : Type) : Type :=
| Ok (a : A)
| Err (e : LC3Error).
Arguments Ok {A} a.
Arguments Err {A} e.

(** ** A state and error monad: [LC3Result] over [&mut self] *)

Definition ST (S A : Type) : Type := S -> S * result A.

Definition ret {S A} (a : A) : ST S A := fun s => (s, Ok a).

Definition fail {S A} (e : LC3Error) : ST S A := fun s => (s, Err e).

(** [m?] followed by [k]: an error stops the computation, the state reached
    so far is kept. *)
Definition bind {S A B} (m : ST S A) (k : A -> ST S B) : ST S B :=
  fun s => match m s with
           | (s', Ok a) => k a s'
           | (s', Err e) => (s', Err e)
           end.

Definition gets {S A} (f : S -> A) : ST S A := fun s => (s, Ok (f s)).

Definition modify {S} (f : S -> S) : ST S unit := fun s => (f s, Ok tt).

Definition lift {S A} (r : result A) : ST S A := fun s => (s, r).

Declare Scope lc3_monad_scope.
Delimit Scope lc3_monad_scope with lc3.
Notation "x <- c1 ;; c2" := (bind c1 (fun x => c2))
  (at level 61, c1 at next level, right associativity) : lc3_monad_scope.
Notation "c1 ;; c2" := (bind c1 (fun _ : unit => c2))
  (at level 61, right associativity) : lc3_monad_scope.
Open Scope lc3_monad_scope.

(** Point update of an array modelled as a total function. *)
Definition upd (f : Z -> Z) (k v : Z) : Z -> Z :=
  fun x => if x =? k then v else f x.

(** ** Constants *)

Definition MEMORY_SIZE : Z := 65536.  (* u16::MAX as usize + 1 *)
Definition PC_START : Z := 0x3000.
Definition KB_STATUS_POS : Z := 0xFE00.
Definition KB_DATA_POS : Z := 0xFE02.

(** Modelled from the spec: [crate::register] is not in src.  Eight
    general registers R0..R7, then the program counter and the
    condition-flags register (the LC-3 layout R_PC = 8, R_COND = 9). *)
Definition NUM_REGISTERS : Z := 10.
Definition RPC : Z := 8.
Definition RCond : Z := 9.

(** Modelled from the spec: [crate::condition_flags] is not in src.  The
    three LC-3 condition codes P = 1 << 0, Z = 1 << 1, N = 1 << 2. *)
Definition FL_POS : Z := 1.
Definition FL_ZRO : Z := 2.
Definition FL_NEG : Z := 4.

(** ** Events ([crate::plugin::Event]; payload names as used in vm.rs) *)

Module Event.
Inductive Event : Type :=
| RegGet (index value : Z)
| RegSet (index value : Z)
| MemGet (location value : Z)
| MemSet (location value : Z)
| RunningGet (value : bool)
| RunningSet (value : bool)
| CharPut (ch : Z)
| CharGet (ch : Z)
| KeyDownGet (value : bool)
| Command (bytes : Z).
End Event.
Import Event (Event).

(** ** Opcodes ([crate::op::Op]) *)

Inductive Op : Type :=
| Br | Add | Ld | St | Jsr | And | Ldr | Str
| Rti | Not | Ldi | Sti | Jmp | Res | Lea | Trap.

(** Modelled from the spec: [Op::from_int] is not in src.  The 4-bit
    opcode values in the order of the LC-3 ISA (the order of the match in
    [run_command]). *)
Definition Op_from_int (code : Z) : result Op :=
  match code with
  | 0 => Ok Br | 1 => Ok Add | 2 => Ok Ld | 3 => Ok St
  | 4 => Ok Jsr | 5 => Ok And | 6 => Ok Ldr | 7 => Ok Str
  | 8 => Ok Rti | 9 => Ok Not | 10 => Ok Ldi | 11 => Ok Sti
  | 12 => Ok Jmp | 13 => Ok Res | 14 => Ok Lea | 15 => Ok Trap
  | _ => Err (UnimplementedOpcode code)
  end.

(** Modelled from the spec: [crate::command::Command] is not in src.  A
    command keeps the raw word; the opcode is its high 4 bits. *)
Record Command : Type := Command_new { get_bytes : Z }.

Definition op_code (c : Command) : result Z := Ok (Z.shiftr (get_bytes c) 12).

(** ** [cli::read_program] *)

(** A [u8] as a number. *)
Definition u8 (b : Byte.byte) : Z := Z.of_N (Byte.to_N b).

(** [bytes.chunks_exact(2)]: the consecutive pairs of bytes; an odd last
    byte is left out. *)
Fixpoint chunks_exact2 (bytes : list Byte.byte) : list (Byte.byte * Byte.byte) :=
  match bytes with
  | a0 :: a1 :: rest => (a0, a1) :: chunks_exact2 rest
  | _ => []
  end.

(** [.map(|a| (a[0] as u16, a[1] as u16)).map(|a| a.1 + (a.0 << 8))], in
    u16 arithmetic: the shift drops the bits above 16 and the sum is taken
    modulo 2^16 (for bytes neither ever happens). *)
Definition word_of_chunk (a : Byte.byte * Byte.byte) : Z :=
  (u8 (snd a) + Z.land (Z.shiftl (u8 (fst a)) 8) 0xFFFF) mod 65536.

Definition decode_program (bytes : list Byte.byte) : list Z :=
  map word_of_chunk (chunks_exact2 bytes).

(** [read_program(path)]: [std::fs::read(path)] is [fs_read path] ([None]
    for an I/O error, on which the function panics); the bytes read are
    decoded as big-endian 16-bit words. *)
Definition read_program (fs_read : string -> option (list Byte.byte)) (path : string)
    : result (list Z) :=
  match fs_read path with
  | Some bytes => Ok (decode_program bytes)
  | None => Err (Panic "read_program: std::fs::read failed")
  end.

(** The big-endian encoding of 16-bit words, the file format that
    [read_program] reads (used to state its round trip). *)
Definition byte_of (n : Z) : Byte.byte :=
  match Byte.of_N (Z.to_N n) with Some b => b | None => Byte.x00 end.

Definition encode_program (ws : list Z) : list Byte.byte :=
  flat_map (fun w => [byte_of (w / 256); byte_of (w mod 256)]) ws.

(** ** The VM *)

Section VM.

(** The I/O capability ([IOType: IOHandle]); its implementation is outside
    the core, so its three operations are arbitrary. *)
Variable IO : Type.
Variable io_is_key_down : IO -> IO * result bool.
Variable io_getchar : IO -> IO * result Z.
Variable io_putchar : IO -> Z -> IO * result unit.

(** The plugins ([Box<dyn Plugin<IOType>>]); a plugin's own state is a
    value of [Plugin]. *)
Variable Plugin : Type.

(** [VM<IOType>].  [delivered] is a ghost field: the sequence of events
    handed to [Plugin::handle_event], one entry per call. *)
Record VM : Type := mkVM {
  memory : Z -> Z;
  registers : Z -> Z;
  running : bool;
  io_handle : IO;
  plugins : option (list Plugin);
  delivered : list Event
}.

Definition set_memory (m : Z -> Z) (vm : VM) : VM :=
  mkVM m (registers vm) (running vm) (io_handle vm) (plugins vm) (delivered vm).
Definition set_registers (r : Z -> Z) (vm : VM) : VM :=
  mkVM (memory vm) r (running vm) (io_handle vm) (plugins vm) (delivered vm).
Definition set_running_field (b : bool) (vm : VM) : VM :=
  mkVM (memory vm) (registers vm) b (io_handle vm) (plugins vm) (delivered vm).
Definition set_io_handle (io : IO) (vm : VM) : VM :=
  mkVM (memory vm) (registers vm) (running vm) io (plugins vm) (delivered vm).
Definition set_plugins (ps : option (list Plugin)) (vm : VM) : VM :=
  mkVM (memory vm) (registers vm) (running vm) (io_handle vm) ps (delivered vm).
Definition deliver (e : Event) (vm : VM) : VM :=
  mkVM (memory vm) (registers vm) (running vm) (io_handle vm) (plugins vm)
    (delivered vm ++ [e]).

(** What a plugin does inside [handle_event(&mut self, vm, event)]: a
    program over the VM's accessors (each read continues with the value it
    returns), ending with the plugin's new state or with an error. *)
Inductive Prog : Type :=
| Ret (p : Plugin)
| Fail (e : LC3Error)
| MemRead (pos : Z) (k : Z -> Prog)
| MemWrite (pos val : Z) (k : Prog)
| RegRead (index : Z) (k : Z -> Prog)
| RegWrite (index val : Z) (k : Prog)
| GetRunning (k : bool -> Prog)
| SetRunning (val : bool) (k : Prog)
| PutChar (ch : Z) (k : Prog)
| GetChar (k : Z -> Prog)
| KeyDown (k : bool -> Prog)
| AddPlugin (q : Plugin) (k : Prog).

Variable handle_event : Plugin -> Event -> Prog.

(** *** Accessors, for a given [notify_plugins] *)

Section Accessors.

Variable notify : Event -> ST VM unit.

Definition mem_write_via (pos val : Z) : ST VM unit :=
  notify (Event.MemSet pos val) ;;
  modify (fun vm => set_memory (upd (memory vm) pos val) vm).

Definition reg_index_read_via (index : Z) : ST VM Z :=
  (* self.registers[index as usize] panics out of bounds *)
  if index <? NUM_REGISTERS then
    value <- gets (fun vm => registers vm index) ;;
    notify (Event.RegGet index value) ;;
    ret value
  else fail (Panic "index out of bounds").

Definition reg_index_write_via (index val : Z) : ST VM unit :=
  notify (Event.RegSet index val) ;;
  if index <? NUM_REGISTERS then
    modify (fun vm => set_registers (upd (registers vm) index val) vm)
  else fail (Panic "index out of bounds").

Definition putchar_via (ch : Z) : ST VM unit :=
  notify (Event.CharPut ch) ;;
  (fun vm => let (io', r) := io_putchar (io_handle vm) ch in
             (set_io_handle io' vm, r)).

Definition getchar_via : ST VM Z :=
  ch <- (fun vm => let (io', r) := io_getchar (io_handle vm) in
                   (set_io_handle io' vm, r)) ;;
  notify (Event.CharGet ch) ;;
  ret ch.

Definition is_key_down_via : ST VM bool :=
  key_down <- (fun vm => let (io', r) := io_is_key_down (io_handle vm) in
                         (set_io_handle io' vm, r)) ;;
  notify (Event.KeyDownGet key_down) ;;
  ret key_down.

Definition get_running_via : ST VM bool :=
  value <- gets running ;;
  notify (Event.RunningGet value) ;;
  ret value.

Definition set_running_via (val : bool) : ST VM unit :=
  notify (Event.RunningSet val) ;;
  modify (set_running_field val).

(** [ch as u16] keeps the low 16 bits of the character's scalar value. *)
Definition mem_read_via (pos : Z) : ST VM Z :=
  (if pos =? KB_STATUS_POS then
     b <- is_key_down_via ;;
     if b then
       mem_write_via KB_STATUS_POS (Z.shiftl 1 15) ;;
       ch <- getchar_via ;;
       mem_write_via KB_DATA_POS (Z.land ch 0xFFFF)
     else mem_write_via KB_STATUS_POS 0
   else ret tt) ;;
  val <- gets (fun vm => memory vm pos) ;;
  notify (Event.MemGet pos val) ;;
  ret val.

End Accessors.

(** [add_plugin]: [self.plugins.as_mut().map(|s| s.push(plugin))]. *)
Definition add_plugin (plugin : Plugin) (vm : VM) : VM :=
  match plugins vm with
  | Some s => set_plugins (Some (s ++ [plugin])) vm
  | None => vm
  end.

(** Running a plugin's [handle_event] body against the VM. *)
Fixpoint run_prog (notify : Event -> ST VM unit) (pr : Prog) : ST VM Plugin :=
  match pr with
  | Ret p => ret p
  | Fail e => fail e
  | MemRead pos k => v <- mem_read_via notify pos ;; run_prog notify (k v)
  | MemWrite pos val k => mem_write_via notify pos val ;; run_prog notify k
  | RegRead i k => v <- reg_index_read_via notify i ;; run_prog notify (k v)
  | RegWrite i val k => reg_index_write_via notify i val ;; run_prog notify k
  | GetRunning k => b <- get_running_via notify ;; run_prog notify (k b)
  | SetRunning b k => set_running_via notify b ;; run_prog notify k
  | PutChar ch k => putchar_via notify ch ;; run_prog notify k
  | GetChar k => ch <- getchar_via notify ;; run_prog notify (k ch)
  | KeyDown k => b <- is_key_down_via notify ;; run_prog notify (k b)
  | AddPlugin q k => modify (add_plugin q) ;; run_prog notify k
  end.

(** [for plugin in &mut plugins { plugin.handle_event(self, event)? }] *)
Fixpoint notify_round (notify : Event -> ST VM unit) (e : Event)
    (ps : list Plugin) : ST VM (list Plugin) :=
  match ps with
  | [] => ret []
  | p :: rest =>
      modify (deliver e) ;;
      p' <- run_prog notify (handle_event p e) ;;
      rest' <- notify_round notify e rest ;;
      ret (p' :: rest')
  end.

(** [notify_plugins]: with the registry detached ([self.plugins] swapped
    for [None]) the plugins run; it is put back only when every plugin
    returned [Ok].  Calls nested in a round see [None] and return at once.
    The recursion through the plugins' own accesses is bounded by [depth];
    the detached registry is never [Some] inside a round (lemma
    [run_prog_detached]), so one level is all the code can reach. *)
Fixpoint notify_plugins_n (depth : nat) (e : Event) : ST VM unit :=
  fun vm =>
    match plugins vm with
    | None => (vm, Ok tt)
    | Some ps =>
        match depth with
        | O => (vm, Err (Internal "notification nesting"))
        | S d =>
            (ps' <- notify_round (notify_plugins_n d) e ps ;;
             modify (set_plugins (Some ps'))) (set_plugins None vm)
        end
    end.

Definition notify_plugins : Event -> ST VM unit := notify_plugins_n 1.

Definition mem_read := mem_read_via notify_plugins.
Definition mem_write := mem_write_via notify_plugins.
Definition reg_index_read := reg_index_read_via notify_plugins.
Definition reg_index_write := reg_index_write_via notify_plugins.
Definition reg_read (reg : Z) := reg_index_read reg.
Definition reg_write (reg val : Z) := reg_index_write reg val.
Definition putchar := putchar_via notify_plugins.
Definition getchar := getchar_via notify_plugins.
Definition is_key_down := is_key_down_via notify_plugins.
Definition get_running := get_running_via notify_plugins.
Definition set_running := set_running_via notify_plugins.

(** [update_flags]: [register_index as u8] keeps the low 8 bits. *)
Definition update_flags (register_index : Z) : ST VM unit :=
  value <- reg_index_read (register_index mod 256) ;;
  let cond_flag :=
    if value =? 0 then FL_ZRO
    else if Z.shiftr value 15 =? 1 then FL_NEG
    else FL_POS in
  reg_write RCond cond_flag.

(** The opcode handlers of [crate::op::handler] (not in src): each takes
    the VM and the command; they are arbitrary here. *)
Variables branch add load store jump_register and_ load_register
  store_register rti not_ load_indirect store_indirect jump reserved
  load_effective_address trap : Command -> ST VM unit.

Definition run_command (command : Command) : ST VM unit :=
  notify_plugins (Event.Command (get_bytes command)) ;;
  code <- lift (op_code command) ;;
  op <- lift (Op_from_int code) ;;
  match op with
  | Br => branch command
  | Add => add command
  | Ld => load command
  | St => store command
  | Jsr => jump_register command
  | And => and_ command
  | Ldr => load_register command
  | Str => store_register command
  | Rti => rti command
  | Not => not_ command
  | Ldi => load_indirect command
  | Sti => store_indirect command
  | Jmp => jump command
  | Res => reserved command
  | Lea => load_effective_address command
  | Trap => trap command
  end.

(** The body of the [while] loop of [run].  [program_count + 1] on a u16
    is taken modulo 2^16 (the release-build wrap-around). *)
Definition run_iteration : ST VM unit :=
  program_count <- reg_read RPC ;;
  reg_write RPC ((program_count + 1) mod 65536) ;;
  w <- mem_read program_count ;;
  run_command (Command_new w).

(** [while self.get_running()? { ... }], for at most [fuel] checks of the
    running flag; [None] when the fuel runs out before the loop ends. *)
Fixpoint run_loop (fuel : nat) (vm : VM) : VM * option (result unit) :=
  match fuel with
  | O => (vm, None)
  | S f =>
      match get_running vm with
      | (vm1, Err e) => (vm1, Some (Err e))
      | (vm1, Ok false) => (vm1, Some (Ok tt))
      | (vm1, Ok true) =>
          match run_iteration vm1 with
          | (vm2, Err e) => (vm2, Some (Err e))
          | (vm2, Ok _) => run_loop f vm2
          end
      end
  end.

Definition run (fuel : nat) (vm : VM) : VM * option (result unit) :=
  match (set_running true ;; reg_write RPC PC_START) vm with
  | (vm1, Err e) => (vm1, Some (Err e))
  | (vm1, Ok _) => run_loop fuel vm1
  end.

(** [for (index, instruction) in program.iter().enumerate()]:
    [PC_START + index as u16]; the length check keeps the index below
    [MEMORY_SIZE - PC_START], so neither the cast nor the sum wraps. *)
Fixpoint load_words (index : Z) (program : list Z) : ST VM unit :=
  match program with
  | [] => ret tt
  | instruction :: rest =>
      mem_write (PC_START + index) instruction ;;
      load_words (index + 1) rest
  end.

Definition load_program (program : list Z) : ST VM unit :=
  let max_len := MEMORY_SIZE - PC_START in
  if Z.of_nat (length program) >? max_len then
    fail (ProgramSize (Z.of_nat (length program)) max_len)
  else load_words 0 program.

Definition new_with_io (io_handle : IO) : VM :=
  mkVM (fun _ => 0) (fun _ => 0) false io_handle (Some []) [].

(** ** Lemmas: the registry stays detached during a round *)

(** A computation that, started with the registry detached, leaves it
    detached and hands no event to any plugin. *)
Definition detached_frame {A} (m : ST VM A) : Prop :=
  forall vm, plugins vm = None ->
    plugins (fst (m vm)) = None /\ delivered (fst (m vm)) = delivered vm.

Lemma frame_ret {A} (a : A) : detached_frame (ret a).
Proof. intros vm H; split; [exact H | reflexivity]. Qed.

Lemma frame_fail {A} e : detached_frame (A:=A) (fail e).
Proof. intros vm H; split; [exact H | reflexivity]. Qed.

Lemma frame_gets {A} (f : VM -> A) : detached_frame (gets f).
Proof. intros vm H; split; [exact H | reflexivity]. Qed.

Lemma frame_modify (f : VM -> VM) :
  (forall vm, plugins (f vm) = plugins vm /\ delivered (f vm) = delivered vm) ->
  detached_frame (modify f).
Proof. intros Hf vm H; simpl; destruct (Hf vm); split; congruence. Qed.

Lemma frame_bind {A B} (m : ST VM A) (k : A -> ST VM B) :
  detached_frame m -> (forall a, detached_frame (k a)) ->
  detached_frame (bind m k).
Proof.
  intros Hm Hk vm H; unfold bind.
  destruct (Hm vm H) as [H1 H2].
  destruct (m vm) as [vm1 [a|e]]; simpl in *.
  - destruct (Hk a vm1 H1); split; congruence.
  - split; assumption.
Qed.

Lemma frame_io {A} (f : IO -> IO * result A) :
  detached_frame (fun vm => let (io', r) := f (io_handle vm) in
                            (set_io_handle io' vm, r)).
Proof.
  intros vm H; destruct (f (io_handle vm)); simpl; split; [exact H | reflexivity].
Qed.

Lemma notify_detached d e vm :
  plugins vm = None -> notify_plugins_n d e vm = (vm, Ok tt).
Proof. intros H; destruct d; simpl; rewrite H; reflexivity. Qed.

Lemma frame_notify d e : detached_frame (notify_plugins_n d e).
Proof.
  intros vm H; rewrite (notify_detached d e vm H); split; [exact H | reflexivity].
Qed.

Create HintDb frame.
#[local] Hint Resolve frame_ret frame_fail frame_gets frame_bind frame_io
  frame_notify : frame.
#[local] Hint Extern 1 (detached_frame (modify _)) =>
  apply frame_modify; intros; split; reflexivity : frame.

Ltac frame_auto :=
  repeat match goal with
         | |- detached_frame (if ?c then _ else _) => destruct c
         | |- detached_frame (bind _ _) => apply frame_bind
         | |- forall _ : bool, _ => intros [|]
         | |- forall _, _ => intro
         | |- detached_frame (match ?b with true => _ | false => _ end) => destruct b
         end; eauto 6 with frame.

Section Detached.
Variable d : nat.
Let nt := notify_plugins_n d.

Lemma frame_mem_write pos val : detached_frame (mem_write_via nt pos val).
Proof. unfold mem_write_via; frame_auto. Qed.

Lemma frame_reg_index_read i : detached_frame (reg_index_read_via nt i).
Proof. unfold reg_index_read_via; frame_auto. Qed.

Lemma frame_reg_index_write i v : detached_frame (reg_index_write_via nt i v).
Proof. unfold reg_index_write_via; frame_auto. Qed.

Lemma frame_putchar ch : detached_frame (putchar_via nt ch).
Proof. unfold putchar_via; frame_auto; exact (frame_io (fun io => io_putchar io ch)). Qed.

Lemma frame_getchar : detached_frame (getchar_via nt).
Proof. unfold getchar_via; frame_auto. Qed.

Lemma frame_is_key_down : detached_frame (is_key_down_via nt).
Proof. unfold is_key_down_via; frame_auto. Qed.

Lemma frame_get_running : detached_frame (get_running_via nt).
Proof. unfold get_running_via; frame_auto. Qed.

Lemma frame_set_running b : detached_frame (set_running_via nt b).
Proof. unfold set_running_via; frame_auto. Qed.

Lemma frame_mem_read pos : detached_frame (mem_read_via nt pos).
Proof.
  unfold mem_read_via; frame_auto; auto using frame_mem_write, frame_getchar,
    frame_is_key_down.
Qed.

Lemma frame_add_plugin q :
  detached_frame (modify (add_plugin q)).
Proof.
  intros vm H; simpl; unfold add_plugin; rewrite H; split; [exact H | reflexivity].
Qed.

#[local] Hint Resolve frame_mem_write frame_reg_index_read frame_reg_index_write
  frame_putchar frame_getchar frame_is_key_down frame_get_running
  frame_set_running frame_mem_read frame_add_plugin : frame.

(** Whatever a plugin does inside its handler, it does with the registry
    detached: it stays detached and no plugin is notified. *)
Lemma run_prog_detached pr : detached_frame (run_prog nt pr).
Proof.
  induction pr; simpl; frame_auto.
Qed.

End Detached.

(** ** Lemmas: accesses inside a round are the plain accesses *)

(** The notifier of a VM whose registry is absent: every access performs
    its own effect and nothing else. *)
Definition no_notify (e : Event) : ST VM unit := ret tt.

(** Two computations that, from any state with the registry detached,
    give the same result and leave it detached. *)
Definition agree_detached {A} (m1 m2 : ST VM A) : Prop :=
  forall vm, plugins vm = None -> m1 vm = m2 vm /\ plugins (fst (m1 vm)) = None.

Lemma agree_same {A} (m : ST VM A) :
  (forall vm, plugins vm = None -> plugins (fst (m vm)) = None) ->
  agree_detached m m.
Proof. intros H vm Hn; split; [reflexivity | exact (H vm Hn)]. Qed.

Lemma agree_frame {A} (m : ST VM A) : detached_frame m -> agree_detached m m.
Proof. intros H; apply agree_same; intros vm Hn; exact (proj1 (H vm Hn)). Qed.

Lemma agree_bind {A B} (m1 m2 : ST VM A) (k1 k2 : A -> ST VM B) :
  agree_detached m1 m2 -> (forall a, agree_detached (k1 a) (k2 a)) ->
  agree_detached (bind m1 k1) (bind m2 k2).
Proof.
  intros Hm Hk vm Hn; unfold bind.
  destruct (Hm vm Hn) as [E P]; rewrite <- E.
  destruct (m1 vm) as [vm1 [a|er]]; simpl in P.
  - exact (Hk a vm1 P).
  - split; [reflexivity | exact P].
Qed.

Lemma agree_notify e : agree_detached (notify_plugins_n 0 e) (no_notify e).
Proof.
  intros vm Hn; rewrite (notify_detached 0 e vm Hn); split; [reflexivity | exact Hn].
Qed.

Ltac agree_auto :=
  repeat match goal with
         | |- agree_detached (if ?c then _ else _) (if ?c then _ else _) => destruct c
         | |- agree_detached (bind _ _) (bind _ _) => apply agree_bind
         | |- agree_detached (notify_plugins_n 0 _) (no_notify _) => apply agree_notify
         | |- forall _ : bool, _ => intros [|]
         | |- forall _, _ => intro
         | |- agree_detached ?m ?m => apply agree_frame
         end; eauto 6 with frame.

Lemma agree_mem_write pos val :
  agree_detached (mem_write_via (notify_plugins_n 0) pos val)
                 (mem_write_via no_notify pos val).
Proof. unfold mem_write_via; agree_auto. Qed.

Lemma agree_reg_index_read i :
  agree_detached (reg_index_read_via (notify_plugins_n 0) i)
                 (reg_index_read_via no_notify i).
Proof. unfold reg_index_read_via; agree_auto. Qed.

Lemma agree_reg_index_write i v :
  agree_detached (reg_index_write_via (notify_plugins_n 0) i v)
                 (reg_index_write_via no_notify i v).
Proof. unfold reg_index_write_via; agree_auto. Qed.

Lemma agree_putchar ch :
  agree_detached (putchar_via (notify_plugins_n 0) ch) (putchar_via no_notify ch).
Proof. unfold putchar_via; agree_auto; exact (frame_io (fun io => io_putchar io ch)). Qed.

Lemma agree_getchar :
  agree_detached (getchar_via (notify_plugins_n 0)) (getchar_via no_notify).
Proof. unfold getchar_via; agree_auto. Qed.

Lemma agree_is_key_down :
  agree_detached (is_key_down_via (notify_plugins_n 0)) (is_key_down_via no_notify).
Proof. unfold is_key_down_via; agree_auto. Qed.

Lemma agree_get_running :
  agree_detached (get_running_via (notify_plugins_n 0)) (get_running_via no_notify).
Proof. unfold get_running_via; agree_auto. Qed.

Lemma agree_set_running b :
  agree_detached (set_running_via (notify_plugins_n 0) b) (set_running_via no_notify b).
Proof. unfold set_running_via; agree_auto. Qed.

Lemma agree_mem_read pos :
  agree_detached (mem_read_via (notify_plugins_n 0) pos) (mem_read_via no_notify pos).
Proof.
  unfold mem_read_via; agree_auto;
    auto using agree_mem_write, agree_getchar, agree_is_key_down.
Qed.

Lemma agree_run_prog pr :
  agree_detached (run_prog (notify_plugins_n 0) pr) (run_prog no_notify pr).
Proof.
  induction pr; cbn [run_prog];
    try (apply agree_frame; auto with frame; fail);
    (apply agree_bind; [|intros; auto]).
  - apply agree_mem_read.
  - apply agree_mem_write.
  - apply agree_reg_index_read.
  - apply agree_reg_index_write.
  - apply agree_get_running.
  - apply agree_set_running.
  - apply agree_putchar.
  - apply agree_getchar.
  - apply agree_is_key_down.
  - apply agree_frame; exact (frame_add_plugin q).
Qed.

Lemma agree_notify_round e ps :
  agree_detached (notify_round (notify_plugins_n 0) e ps) (notify_round no_notify e ps).
Proof.
  induction ps as [|p ps IH]; cbn [notify_round].
  - apply agree_frame; auto with frame.
  - apply agree_bind; [|intros _; apply agree_bind; [apply agree_run_prog|intros p'];
      apply agree_bind; [exact IH | intros; apply agree_frame; auto with frame]].
    apply agree_same; intros vm Hn; exact Hn.
Qed.

(** With the registry registered as [ps], [notify_plugins] runs every
    handler against the detached VM with the plain accesses. *)
Lemma notify_plugins_plain e vm ps :
  plugins vm = Some ps ->
  notify_plugins e vm =
  (ps' <- notify_round no_notify e ps ;; modify (set_plugins (Some ps')))
    (set_plugins None vm).
Proof.
  intros Hp.
  assert (E : notify_plugins e vm =
    (ps' <- notify_round (notify_plugins_n 0) e ps ;; modify (set_plugins (Some ps')))
      (set_plugins None vm))
    by (unfold notify_plugins; cbn [notify_plugins_n]; rewrite Hp; reflexivity).
  rewrite E; unfold bind.
  rewrite (proj1 (agree_notify_round e ps (set_plugins None vm) eq_refl)).
  reflexivity.
Qed.

(** A round stops at the first handler that fails, with the state that
    handler reached and its error. *)
Lemma notify_round_fails_at nt e p ps2 vm2 err : forall ps1 vm vm1 ps1',
  notify_round nt e ps1 vm = (vm1, Ok ps1') ->
  run_prog nt (handle_event p e) (deliver e vm1) = (vm2, Err err) ->
  notify_round nt e (ps1 ++ p :: ps2) vm = (vm2, Err err).
Proof.
  induction ps1 as [|q ps1 IH]; intros vm vm1 ps1' H1 H2.
  - cbn [notify_round] in H1; inversion H1; subst vm1.
    cbn [app notify_round]; unfold bind, modify; rewrite H2; reflexivity.
  - cbn [app notify_round] in *; unfold bind, modify in *.
    destruct (run_prog nt (handle_event q e) (deliver e vm)) as [vq [q'|er]];
      [|discriminate].
    destruct (notify_round nt e ps1 vq) as [vr [rest|er]] eqn:Er; [|discriminate].
    rewrite (IH vq vm1 rest); [reflexivity| |exact H2].
    inversion H1; subst; exact Er.
Qed.
(** ** Lemmas: one notification round *)

Lemma notify_round_spec d e ps : forall vm,
  plugins vm = None ->
  match notify_round (notify_plugins_n d) e ps vm with
  | (vm', Ok ps') =>
      plugins vm' = None /\ delivered vm' = delivered vm ++ repeat e (length ps)
      /\ length ps' = length ps
  | (vm', Err _) =>
      plugins vm' = None /\
      exists k, (k <= length ps)%nat /\ delivered vm' = delivered vm ++ repeat e k
  end.
Proof.
  induction ps as [|p rest IH]; intros vm H.
  - simpl; rewrite app_nil_r; auto.
  - cbn [notify_round]; unfold bind at 1, modify.
    assert (Hd : plugins (deliver e vm) = None) by exact H.
    destruct (run_prog_detached d (handle_event p e) (deliver e vm) Hd) as [H1 H2].
    unfold bind at 1.
    destruct (run_prog _ (handle_event p e) (deliver e vm)) as [vm1 [p'|er]];
      simpl in H1, H2.
    + specialize (IH vm1 H1); unfold bind.
      destruct (notify_round _ e rest vm1) as [vm2 [rest'|er]].
      * destruct IH as (I1 & I2 & I3); simpl; rewrite I2, H2, <- app_assoc.
        auto.
      * destruct IH as (I1 & k & Hk & I2); split; [exact I1|].
        exists (S k); split; [simpl; lia|].
        rewrite I2, H2, <- app_assoc; reflexivity.
    + split; [exact H1|]; exists 1%nat; split; [simpl; lia|].
      rewrite H2; reflexivity.
Qed.

(** A round with the registry attached: every plugin receives the event
    once, nothing else is delivered, and on success the registry (the
    plugins' updated states, one per plugin) is put back; on an error it
    stays detached. *)
Lemma notify_plugins_spec d e vm ps :
  plugins vm = Some ps ->
  match notify_plugins_n (S d) e vm with
  | (vm', Ok _) =>
      (exists ps', plugins vm' = Some ps' /\ length ps' = length ps) /\
      delivered vm' = delivered vm ++ repeat e (length ps)
  | (vm', Err _) =>
      plugins vm' = None /\
      exists k, (k <= length ps)%nat /\ delivered vm' = delivered vm ++ repeat e k
  end.
Proof.
  intros H; cbn [notify_plugins_n]; rewrite H.
  pose proof (notify_round_spec d e ps (set_plugins None vm) eq_refl) as R.
  unfold bind.
  destruct (notify_round _ e ps (set_plugins None vm)) as [vm1 [ps'|er]].
  - destruct R as (R1 & R2 & R3); simpl.
    split; [exists ps'; auto | exact R2].
  - exact R.
Qed.

(** ** Observers that do not interfere *)

(** [k] more deliveries of [e]. *)
Definition deliver_n (e : Event) (k : nat) (vm : VM) : VM :=
  mkVM (memory vm) (registers vm) (running vm) (io_handle vm) (plugins vm)
    (delivered vm ++ repeat e k).

(** What a notification round leaves when no plugin touches the VM: each
    registered plugin has received [e]. *)
Definition emit (e : Event) (vm : VM) : VM :=
  match plugins vm with
  | Some ps => deliver_n e (length ps) vm
  | None => vm
  end.

(** The match of [run_command]: the handler an opcode is dispatched to. *)
Definition handler_for (op : Op) : Command -> ST VM unit :=
  match op with
  | Br => branch | Add => add | Ld => load | St => store
  | Jsr => jump_register | And => and_ | Ldr => load_register
  | Str => store_register | Rti => rti | Not => not_
  | Ldi => load_indirect | Sti => store_indirect | Jmp => jump
  | Res => reserved | Lea => load_effective_address | Trap => trap
  end.

Lemma run_command_dispatch c vm :
  run_command c vm =
  (notify_plugins (Event.Command (get_bytes c)) ;;
   op <- lift (Op_from_int (Z.shiftr (get_bytes c) 12)) ;;
   handler_for op c) vm.
Proof.
  unfold run_command, op_code, bind, lift.
  destruct (notify_plugins _ vm) as [vm1 [[]|er]]; [|reflexivity].
  destruct (Op_from_int _) as [[]|er]; reflexivity.
Qed.

(** Every 16-bit word decodes to an opcode. *)
Lemma Op_from_int_u16 w :
  0 <= w < 65536 -> exists op, Op_from_int (Z.shiftr w 12) = Ok op.
Proof.
  intros Hw; rewrite Z.shiftr_div_pow2 by lia.
  assert (0 <= w / 2 ^ 12 < 16) by (split; [apply Z.div_pos | apply Z.div_lt_upper_bound]; lia).
  destruct (w / 2 ^ 12) as [|p|p] eqn:E; [eexists; reflexivity| |lia].
  do 16 (destruct p as [p|p|]; try (eexists; reflexivity); try lia).
Qed.

Section Passive.

Hypothesis passive : forall p e, handle_event p e = Ret p.

Lemma notify_round_passive nt e ps : forall vm,
  notify_round nt e ps vm = (deliver_n e (length ps) vm, Ok ps).
Proof.
  induction ps as [|p rest IH]; intros vm.
  - destruct vm; unfold deliver_n; simpl; rewrite app_nil_r; reflexivity.
  - cbn [notify_round]; unfold bind at 1, modify; unfold bind at 1.
    rewrite passive; cbn [run_prog ret]; unfold bind; rewrite IH.
    destruct vm; unfold deliver_n, deliver; simpl; rewrite <- app_assoc; reflexivity.
Qed.

Lemma notify_passive e vm : notify_plugins e vm = (emit e vm, Ok tt).
Proof.
  unfold notify_plugins, emit; cbn [notify_plugins_n].
  destruct (plugins vm) as [ps|] eqn:Hp; [|reflexivity].
  unfold bind; rewrite notify_round_passive.
  destruct vm; simpl in *; subst; reflexivity.
Qed.

Lemma emit_plugins e vm : plugins (emit e vm) = plugins vm.
Proof. unfold emit, deliver_n; destruct (plugins vm) eqn:H; simpl; congruence. Qed.

Lemma emit_fields e vm :
  memory (emit e vm) = memory vm /\ registers (emit e vm) = registers vm /\
  running (emit e vm) = running vm /\ io_handle (emit e vm) = io_handle vm.
Proof. unfold emit; destruct (plugins vm); repeat split. Qed.

Lemma mem_write_passive pos val vm :
  mem_write pos val vm =
  (set_memory (upd (memory vm) pos val) (emit (Event.MemSet pos val) vm), Ok tt).
Proof.
  unfold mem_write, mem_write_via, bind; rewrite notify_passive; cbn [modify].
  unfold emit; destruct (plugins vm); reflexivity.
Qed.

Lemma reg_index_write_passive i val vm :
  0 <= i < NUM_REGISTERS ->
  reg_index_write i val vm =
  (set_registers (upd (registers vm) i val) (emit (Event.RegSet i val) vm), Ok tt).
Proof.
  intros Hi; unfold reg_index_write, reg_index_write_via, bind; rewrite notify_passive.
  replace (i <? NUM_REGISTERS) with true by (symmetry; apply Z.ltb_lt; lia).
  unfold emit; destruct (plugins vm); reflexivity.
Qed.

Lemma reg_index_read_passive i vm :
  0 <= i < NUM_REGISTERS ->
  reg_index_read i vm = (emit (Event.RegGet i (registers vm i)) vm, Ok (registers vm i)).
Proof.
  intros Hi; unfold reg_index_read, reg_index_read_via.
  replace (i <? NUM_REGISTERS) with true by (symmetry; apply Z.ltb_lt; lia).
  unfold bind, gets; rewrite notify_passive; reflexivity.
Qed.

Lemma get_running_passive vm :
  get_running vm = (emit (Event.RunningGet (running vm)) vm, Ok (running vm)).
Proof. unfold get_running, get_running_via, bind, gets; rewrite notify_passive; reflexivity. Qed.

Lemma set_running_passive b vm :
  set_running b vm = (set_running_field b (emit (Event.RunningSet b) vm), Ok tt).
Proof. unfold set_running, set_running_via, bind, modify; rewrite notify_passive; reflexivity. Qed.

Lemma mem_read_plain_passive pos vm :
  pos <> KB_STATUS_POS ->
  mem_read pos vm = (emit (Event.MemGet pos (memory vm pos)) vm, Ok (memory vm pos)).
Proof.
  intros Hp; unfold mem_read, mem_read_via.
  replace (pos =? KB_STATUS_POS) with false by (symmetry; apply Z.eqb_neq; exact Hp).
  unfold bind, ret, gets; rewrite notify_passive; reflexivity.
Qed.

End Passive.
(** ** More lemmas *)

Lemma notify_empty e vm :
  plugins vm = Some [] -> notify_plugins e vm = (vm, Ok tt).
Proof.
  intros H; unfold notify_plugins; cbn [notify_plugins_n]; rewrite H.
  cbn; destruct vm; simpl in *; subst; reflexivity.
Qed.

Lemma shiftr15_testbit v :
  0 <= v < 65536 -> (Z.shiftr v 15 =? 1) = Z.testbit v 15.
Proof.
  intros Hv; rewrite Z.shiftr_div_pow2 by lia.
  rewrite Z.testbit_eqb by lia.
  assert (0 <= v / 2 ^ 15 < 2) by (split; [apply Z.div_pos | apply Z.div_lt_upper_bound]; lia).
  rewrite (Z.mod_small (v / 2 ^ 15) 2) by lia.
  reflexivity.
Qed.

Lemma reg_write_sets i val vm vm' :
  reg_write i val vm = (vm', Ok tt) -> registers vm' i = val.
Proof.
  unfold reg_write, reg_index_write, reg_index_write_via, bind.
  destruct (notify_plugins _ vm) as [vm1 [[]|er]]; [|discriminate].
  destruct (i <? NUM_REGISTERS); [|discriminate].
  intros E; inversion E; simpl; unfold upd; rewrite Z.eqb_refl; reflexivity.
Qed.

(** ** Claims *)

(** C2: while a notification round is in progress, nothing a plugin does
    inside [handle_event] (register or memory accesses, running flag,
    character I/O, key poll) hands an event to any plugin: the registry is
    detached, so every nested call returns from [notify_plugins] at once
    while its mutation is still applied.  Precisely: (a) a handler's
    accesses keep the registry detached and deliver nothing; (b) each of
    them computes exactly what the same access does with no notification
    at all ([no_notify]), whatever the round's outcome; (c) the round is
    [notify_round no_notify] on the detached VM; (d) such a plain access
    performs its effect: a memory write updates memory, an in-range
    register write updates the register, [set_running] sets the flag,
    character output, input and key poll go to the I/O capability, reads
    return the current value.  A round delivers its event once to every
    registered plugin and nothing else; when it completes (every handler
    returned [Ok]) the registry is put back, so the next access from
    outside notifies the same number of plugins again. *)
Theorem notify_plugins_no_nested_events e vm ps :
  plugins vm = Some ps ->
  (forall pr vm0, plugins vm0 = None ->
     plugins (fst (run_prog (notify_plugins_n 0) pr vm0)) = None /\
     delivered (fst (run_prog (notify_plugins_n 0) pr vm0)) = delivered vm0) /\
  (forall pr vm0, plugins vm0 = None ->
     run_prog (notify_plugins_n 0) pr vm0 = run_prog no_notify pr vm0) /\
  notify_plugins e vm =
    (ps' <- notify_round no_notify e ps ;; modify (set_plugins (Some ps')))
      (set_plugins None vm) /\
  (forall pos val k vm0,
     run_prog no_notify (MemWrite pos val k) vm0 =
     run_prog no_notify k (set_memory (upd (memory vm0) pos val) vm0)) /\
  (forall i val k vm0, i < NUM_REGISTERS ->
     run_prog no_notify (RegWrite i val k) vm0 =
     run_prog no_notify k (set_registers (upd (registers vm0) i val) vm0)) /\
  (forall b k vm0,
     run_prog no_notify (SetRunning b k) vm0 =
     run_prog no_notify k (set_running_field b vm0)) /\
  (forall ch k vm0,
     run_prog no_notify (PutChar ch k) vm0 =
     let (io', r) := io_putchar (io_handle vm0) ch in
     match r with
     | Ok _ => run_prog no_notify k (set_io_handle io' vm0)
     | Err er => (set_io_handle io' vm0, Err er)
     end) /\
  (forall k vm0,
     run_prog no_notify (GetChar k) vm0 =
     let (io', r) := io_getchar (io_handle vm0) in
     match r with
     | Ok ch => run_prog no_notify (k ch) (set_io_handle io' vm0)
     | Err er => (set_io_handle io' vm0, Err er)
     end) /\
  (forall k vm0,
     run_prog no_notify (KeyDown k) vm0 =
     let (io', r) := io_is_key_down (io_handle vm0) in
     match r with
     | Ok b => run_prog no_notify (k b) (set_io_handle io' vm0)
     | Err er => (set_io_handle io' vm0, Err er)
     end) /\
  (forall pos k vm0, pos <> KB_STATUS_POS ->
     run_prog no_notify (MemRead pos k) vm0 =
     run_prog no_notify (k (memory vm0 pos)) vm0) /\
  (forall i k vm0, i < NUM_REGISTERS ->
     run_prog no_notify (RegRead i k) vm0 =
     run_prog no_notify (k (registers vm0 i)) vm0) /\
  (forall k vm0,
     run_prog no_notify (GetRunning k) vm0 =
     run_prog no_notify (k (running vm0)) vm0) /\
  (forall vm', notify_plugins e vm = (vm', Ok tt) ->
     delivered vm' = delivered vm ++ repeat e (length ps) /\
     (exists ps', plugins vm' = Some ps' /\ length ps' = length ps) /\
     (forall e2 vm'', notify_plugins e2 vm' = (vm'', Ok tt) ->
        delivered vm'' = delivered vm' ++ repeat e2 (length ps))).
Proof.
  intros Hp.
  split; [intros pr vm0 H0; exact (run_prog_detached 0 pr vm0 H0)|].
  split; [intros pr vm0 H0; exact (proj1 (agree_run_prog pr vm0 H0))|].
  split; [exact (notify_plugins_plain e vm ps Hp)|].
  split; [intros; reflexivity|].
  split.
  { intros i val k vm0 Hi; cbn [run_prog]; unfold reg_index_write_via, bind.
    replace (i <? NUM_REGISTERS) with true by (symmetry; apply Z.ltb_lt; exact Hi).
    reflexivity. }
  split; [intros; reflexivity|].
  split.
  { intros ch k vm0; cbn [run_prog]; unfold putchar_via, no_notify, ret, bind.
    destruct (io_putchar (io_handle vm0) ch) as [io' [[]|er]]; reflexivity. }
  split.
  { intros k vm0; cbn [run_prog]; unfold getchar_via, no_notify, ret, bind.
    destruct (io_getchar (io_handle vm0)) as [io' [ch|er]]; reflexivity. }
  split.
  { intros k vm0; cbn [run_prog]; unfold is_key_down_via, no_notify, ret, bind.
    destruct (io_is_key_down (io_handle vm0)) as [io' [b|er]]; reflexivity. }
  split.
  { intros pos k vm0 Hpos; cbn [run_prog]; unfold mem_read_via, bind.
    replace (pos =? KB_STATUS_POS) with false by (symmetry; apply Z.eqb_neq; exact Hpos).
    reflexivity. }
  split.
  { intros i k vm0 Hi; cbn [run_prog]; unfold reg_index_read_via, bind.
    replace (i <? NUM_REGISTERS) with true by (symmetry; apply Z.ltb_lt; exact Hi).
    reflexivity. }
  split; [intros; reflexivity|].
  intros vm' Hn.
  pose proof (notify_plugins_spec 0 e vm ps Hp) as S1.
  unfold notify_plugins in Hn; rewrite Hn in S1.
  destruct S1 as [[ps' [Hp' Hl]] Hd].
  split; [exact Hd|]; split; [exists ps'; auto|].
  intros e2 vm'' Hn2.
  pose proof (notify_plugins_spec 0 e2 vm' ps' Hp') as S2.
  unfold notify_plugins in Hn2; rewrite Hn2 in S2.
  destruct S2 as [_ Hd2]; rewrite Hd2, Hl; reflexivity.
Qed.

(** C9: [add_plugin] called while the registry is detached (inside a
    round) changes nothing and returns normally; outside a round it
    appends the plugin.  A completed round puts back exactly one plugin per
    plugin registered before it, so a plugin added from inside a handler is
    never registered. *)
Theorem add_plugin_during_round_discarded q vm :
  (plugins vm = None -> add_plugin q vm = vm) /\
  (forall s, plugins vm = Some s -> plugins (add_plugin q vm) = Some (s ++ [q])) /\
  (forall e ps vm', plugins vm = Some ps -> notify_plugins e vm = (vm', Ok tt) ->
     exists ps', plugins vm' = Some ps' /\ length ps' = length ps).
Proof.
  split; [intros H; unfold add_plugin; rewrite H; reflexivity|].
  split; [intros s H; unfold add_plugin; rewrite H; reflexivity|].
  intros e ps vm' Hp Hn.
  pose proof (notify_plugins_spec 0 e vm ps Hp) as S1.
  unfold notify_plugins in Hn; rewrite Hn in S1.
  exact (proj1 S1).
Qed.

(** C10: a fresh VM is stopped, its memory and all its registers (the
    program counter and the condition register included) are 0, so the
    condition register holds none of the three flags; the registry is
    empty. *)
Theorem new_with_io_initial_state io :
  running (new_with_io io) = false /\
  (forall a, memory (new_with_io io) a = 0) /\
  (forall r, registers (new_with_io io) r = 0) /\
  registers (new_with_io io) RPC = 0 /\
  registers (new_with_io io) RCond = 0 /\
  Z.land (registers (new_with_io io) RCond) (Z.lor FL_NEG (Z.lor FL_ZRO FL_POS)) = 0 /\
  ~ In (registers (new_with_io io) RCond) [FL_NEG; FL_ZRO; FL_POS] /\
  plugins (new_with_io io) = Some [].
Proof.
  repeat split; simpl; try reflexivity.
  intros [H|[H|[H|[]]]]; discriminate.
Qed.

(** C6: a program longer than [65536 - 0x3000] words is refused with
    [ProgramSize]; the VM is returned exactly as it was (memory,
    registers, running flag, and no event delivered). *)
Theorem load_program_too_large program vm :
  Z.of_nat (length program) > MEMORY_SIZE - PC_START ->
  load_program program vm =
  (vm, Err (ProgramSize (Z.of_nat (length program)) (MEMORY_SIZE - PC_START))).
Proof.
  intros H; unfold load_program.
  replace (Z.of_nat (length program) >? MEMORY_SIZE - PC_START) with true
    by (symmetry; apply Z.gtb_lt; lia).
  reflexivity.
Qed.

(** C5: for a general register [r] holding a 16-bit value [v],
    [update_flags r] leaves in the condition register exactly one flag:
    [FL_ZRO] when [v = 0], [FL_NEG] when bit 15 of [v] is set, [FL_POS]
    otherwise (whatever the plugins do, since the flag is written last);
    with no plugin registered it succeeds. *)
Theorem update_flags_sets_one_flag r vm :
  0 <= r < 8 -> 0 <= registers vm r < 65536 ->
  (forall vm', update_flags r vm = (vm', Ok tt) ->
     registers vm' RCond =
     (if registers vm r =? 0 then FL_ZRO
      else if Z.testbit (registers vm r) 15 then FL_NEG else FL_POS) /\
     In (registers vm' RCond) [FL_ZRO; FL_NEG; FL_POS]) /\
  (plugins vm = Some [] -> snd (update_flags r vm) = Ok tt).
Proof.
  intros Hr Hv.
  assert (Hm : r mod 256 = r) by (apply Z.mod_small; lia).
  assert (Hlt : (r <? NUM_REGISTERS) = true) by (apply Z.ltb_lt; unfold NUM_REGISTERS; lia).
  unfold update_flags; rewrite Hm.
  unfold reg_index_read, reg_index_read_via; rewrite Hlt.
  split.
  - intros vm' H; unfold bind, gets, ret in H.
    destruct (notify_plugins _ vm) as [vm1 [[]|er]]; [|discriminate].
    apply reg_write_sets in H; rewrite H, shiftr15_testbit by exact Hv.
    split; [reflexivity|].
    destruct (_ =? 0); [simpl; auto|]; destruct (Z.testbit _ _); simpl; auto.
  - intros Hp; unfold bind, gets, ret; rewrite (notify_empty _ _ Hp).
    unfold reg_write, reg_index_write, reg_index_write_via, bind.
    rewrite (notify_empty _ _ Hp); reflexivity.
Qed.

Lemma emit_memory e vm : memory (emit e vm) = memory vm.
Proof. apply (emit_fields e vm). Qed.
Lemma emit_registers e vm : registers (emit e vm) = registers vm.
Proof. apply (emit_fields e vm). Qed.
Lemma emit_running e vm : running (emit e vm) = running vm.
Proof. apply (emit_fields e vm). Qed.

Lemma load_words_passive (passive : forall p e, handle_event p e = Ret p) program :
  forall idx vm,
  let (vm', r) := load_words idx program vm in
  r = Ok tt /\ registers vm' = registers vm /\ running vm' = running vm /\
  plugins vm' = plugins vm /\
  (forall i, (i < length program)%nat ->
     memory vm' (PC_START + idx + Z.of_nat i) = nth i program 0) /\
  (forall a, a < PC_START + idx \/ PC_START + idx + Z.of_nat (length program) <= a ->
     memory vm' a = memory vm a).
Proof.
  induction program as [|w rest IH]; intros idx vm.
  - simpl; repeat split; try reflexivity; intros i Hi; lia.
  - cbn [load_words]; unfold bind at 1; rewrite (mem_write_passive passive).
    set (vm1 := set_memory _ _).
    specialize (IH (idx + 1) vm1).
    destruct (load_words (idx + 1) rest vm1) as [vm' r].
    destruct IH as (Hr & Hreg & Hrun & Hpl & Hin & Hout).
    subst vm1; simpl in Hreg, Hrun, Hpl.
    rewrite emit_registers in Hreg; rewrite emit_running in Hrun;
      rewrite emit_plugins in Hpl.
    split; [exact Hr|]; split; [exact Hreg|]; split; [exact Hrun|];
      split; [exact Hpl|]; split.
    + intros [|i] Hi.
      * rewrite Hout by lia; cbn [memory set_memory]; unfold upd.
        rewrite Z.add_0_r, Z.eqb_refl; reflexivity.
      * simpl in Hi; cbn [nth].
        replace (PC_START + idx + Z.of_nat (S i)) with (PC_START + (idx + 1) + Z.of_nat i) by lia.
        apply Hin; lia.
    + intros a Ha; cbn [length] in Ha.
      rewrite Hout by lia; cbn [memory set_memory]; unfold upd.
      replace (a =? PC_START + idx) with false by (symmetry; apply Z.eqb_neq; lia).
      reflexivity.
Qed.

(** C7: with plugins that do not interfere, a program of length [L] that
    fits ([L <= 65536 - 0x3000]) is loaded: [Ok], word [i] at address
    [0x3000 + i] for every [i < L], every other address, the registers and
    the running flag unchanged. *)
Theorem load_program_fits (passive : forall p e, handle_event p e = Ret p)
    program vm :
  Z.of_nat (length program) <= MEMORY_SIZE - PC_START ->
  let (vm', r) := load_program program vm in
  r = Ok tt /\
  (forall i, (i < length program)%nat ->
     memory vm' (PC_START + Z.of_nat i) = nth i program 0) /\
  (forall a, a < PC_START \/ PC_START + Z.of_nat (length program) <= a ->
     memory vm' a = memory vm a) /\
  registers vm' = registers vm /\ running vm' = running vm.
Proof.
  intros H; unfold load_program.
  replace (Z.of_nat (length program) >? MEMORY_SIZE - PC_START) with false
    by (rewrite Z.gtb_ltb; symmetry; apply Z.ltb_ge; lia).
  pose proof (load_words_passive passive program 0 vm) as L.
  destruct (load_words 0 program vm) as [vm' r].
  destruct L as (Hr & Hreg & Hrun & _ & Hin & Hout).
  rewrite Z.add_0_r in Hin, Hout.
  auto 7.
Qed.

(** One turn of the loop when no plugin interferes: the running flag is
    read, then the PC, the PC plus one is written back, the word at the old
    PC is fetched, the [Command] event is emitted and the command goes to
    the handler of its opcode; an error of any of these ends the loop with
    the state reached. *)
Lemma run_loop_step_passive (passive : forall p e, handle_event p e = Ret p)
    fuel vm :
  running vm = true ->
  let pc := registers vm RPC in
  let pc1 := (pc + 1) mod 65536 in
  let vm1 := set_registers (upd (registers vm) RPC pc1)
               (emit (Event.RegSet RPC pc1)
                 (emit (Event.RegGet RPC pc) (emit (Event.RunningGet true) vm))) in
  run_loop (S fuel) vm =
  match mem_read pc vm1 with
  | (vm2, Ok w) =>
      match Op_from_int (Z.shiftr w 12) with
      | Ok op =>
          match handler_for op (Command_new w) (emit (Event.Command w) vm2) with
          | (vm3, Ok _) => run_loop fuel vm3
          | (vm3, Err e) => (vm3, Some (Err e))
          end
      | Err e => (emit (Event.Command w) vm2, Some (Err e))
      end
  | (vm2, Err e) => (vm2, Some (Err e))
  end.
Proof.
  intros Hrun; cbn zeta.
  cbn [run_loop]; rewrite (get_running_passive passive), Hrun.
  unfold run_iteration, reg_read, reg_write, bind at 1.
  rewrite (reg_index_read_passive passive) by (unfold RPC, NUM_REGISTERS; lia).
  unfold bind at 1.
  rewrite (reg_index_write_passive passive) by (unfold RPC, NUM_REGISTERS; lia).
  rewrite !emit_registers.
  unfold bind at 1.
  destruct (mem_read _ _) as [vm2 [w|er]]; [|reflexivity].
  rewrite run_command_dispatch; unfold bind, lift; rewrite (notify_passive passive).
  cbn [get_bytes].
  destruct (Op_from_int _) as [op|er]; [|reflexivity].
  destruct (handler_for op _ _) as [vm3 [[]|er]]; reflexivity.
Qed.

Lemma run_loop_fuel_mono fuel : forall fuel' vm vm' r,
  (fuel <= fuel')%nat -> run_loop fuel vm = (vm', Some r) ->
  run_loop fuel' vm = (vm', Some r).
Proof.
  induction fuel as [|f IH]; intros fuel' vm vm' r Hle H; [discriminate|].
  destruct fuel' as [|f']; [lia|].
  cbn [run_loop] in *.
  destruct (get_running vm) as [vm1 [[|]|er]]; try exact H.
  destruct (run_iteration vm1) as [vm2 [u|er]]; [|exact H].
  apply IH; [lia | exact H].
Qed.

(** C4: [run] sets the running flag, then the PC to [0x3000], then loops.
    A turn of the loop (no plugin interfering) reads the running flag once,
    reads the PC, writes PC + 1 back, fetches the word at the old PC (for
    any address but the keyboard status register, the word stored there),
    emits the command and hands it to the one handler of its opcode, which
    therefore starts from the incremented PC; the loop ends with [Ok] only
    when the flag reads false. *)
Theorem run_fetch_execute_cycle (passive : forall p e, handle_event p e = Ret p) :
  (forall fuel vm,
     run fuel vm =
     run_loop fuel
       (set_registers (upd (registers vm) RPC PC_START)
          (emit (Event.RegSet RPC PC_START)
             (set_running_field true (emit (Event.RunningSet true) vm))))) /\
  (forall fuel vm, running vm = true ->
     let pc := registers vm RPC in
     let pc1 := (pc + 1) mod 65536 in
     let vm1 := set_registers (upd (registers vm) RPC pc1)
                  (emit (Event.RegSet RPC pc1)
                    (emit (Event.RegGet RPC pc) (emit (Event.RunningGet true) vm))) in
     run_loop (S fuel) vm =
     match mem_read pc vm1 with
     | (vm2, Ok w) =>
         match Op_from_int (Z.shiftr w 12) with
         | Ok op =>
             match handler_for op (Command_new w) (emit (Event.Command w) vm2) with
             | (vm3, Ok _) => run_loop fuel vm3
             | (vm3, Err e) => (vm3, Some (Err e))
             end
         | Err e => (emit (Event.Command w) vm2, Some (Err e))
         end
     | (vm2, Err e) => (vm2, Some (Err e))
     end) /\
  (forall pc vm, pc <> KB_STATUS_POS ->
     mem_read pc vm = (emit (Event.MemGet pc (memory vm pc)) vm, Ok (memory vm pc))) /\
  (forall fuel vm, running vm = false ->
     run_loop (S fuel) vm = (emit (Event.RunningGet false) vm, Some (Ok tt))) /\
  (forall fuel vm vm', run_loop fuel vm = (vm', Some (Ok tt)) -> running vm' = false).
Proof.
  split; [|split; [|split; [|split]]].
  - intros fuel vm; unfold run, bind.
    rewrite (set_running_passive passive); unfold reg_write.
    rewrite (reg_index_write_passive passive) by (unfold RPC, NUM_REGISTERS; lia).
    cbn [registers set_running_field]; rewrite emit_registers; reflexivity.
  - intros fuel vm Hrun; exact (run_loop_step_passive passive fuel vm Hrun).
  - intros pc vm Hpc; exact (mem_read_plain_passive passive pc vm Hpc).
  - intros fuel vm Hrun; cbn [run_loop]; rewrite (get_running_passive passive), Hrun.
    reflexivity.
  - induction fuel as [|f IH]; intros vm vm' H; [discriminate|].
    cbn [run_loop] in H; rewrite (get_running_passive passive) in H.
    destruct (running vm) eqn:Er.
    + destruct (run_iteration _) as [vm2 [u|er]]; [exact (IH _ _ H)|discriminate].
    + inversion H; subst; rewrite emit_running; exact Er.
Qed.

(** C8: the first error ends [run]: the result does not change with more
    fuel once an error (or the end) is reached, so no later instruction is
    fetched; a plugin failing on the running-flag check, a failing fetch,
    decode or opcode handler, each ends the loop with that same error and
    the state reached at that point (nothing rolled back; a plugin error
    also leaves the registry detached). *)
Theorem run_stops_at_first_error :
  (forall fuel fuel' vm vm' r, (fuel <= fuel')%nat ->
     run_loop fuel vm = (vm', Some r) -> run_loop fuel' vm = (vm', Some r)) /\
  (forall fuel vm p ps e,
     plugins vm = Some (p :: ps) ->
     handle_event p (Event.RunningGet (running vm)) = Fail e ->
     run_loop (S fuel) vm =
     (deliver (Event.RunningGet (running vm)) (set_plugins None vm), Some (Err e))) /\
  ((forall p e, handle_event p e = Ret p) ->
   forall fuel vm, running vm = true ->
     let pc := registers vm RPC in
     let pc1 := (pc + 1) mod 65536 in
     let vm1 := set_registers (upd (registers vm) RPC pc1)
                  (emit (Event.RegSet RPC pc1)
                    (emit (Event.RegGet RPC pc) (emit (Event.RunningGet true) vm))) in
     (forall vm2 e, mem_read pc vm1 = (vm2, Err e) ->
        run_loop (S fuel) vm = (vm2, Some (Err e))) /\
     (forall vm2 w e, mem_read pc vm1 = (vm2, Ok w) ->
        Op_from_int (Z.shiftr w 12) = Err e ->
        run_loop (S fuel) vm = (emit (Event.Command w) vm2, Some (Err e))) /\
     (forall vm2 w op vm3 e, mem_read pc vm1 = (vm2, Ok w) ->
        Op_from_int (Z.shiftr w 12) = Ok op ->
        handler_for op (Command_new w) (emit (Event.Command w) vm2) = (vm3, Err e) ->
        run_loop (S fuel) vm = (vm3, Some (Err e)))) /\
  (forall fuel vm,
     run fuel vm =
     match set_running true vm with
     | (vm1, Err e) => (vm1, Some (Err e))
     | (vm1, Ok _) =>
         match reg_write RPC PC_START vm1 with
         | (vm2, Err e) => (vm2, Some (Err e))
         | (vm2, Ok _) => run_loop fuel vm2
         end
     end) /\
  (forall fuel vm,
     run_loop (S fuel) vm =
     match get_running vm with
     | (vm1, Err e) => (vm1, Some (Err e))
     | (vm1, Ok false) => (vm1, Some (Ok tt))
     | (vm1, Ok true) =>
         match reg_read RPC vm1 with
         | (vm2, Err e) => (vm2, Some (Err e))
         | (vm2, Ok pc) =>
             match reg_write RPC ((pc + 1) mod 65536) vm2 with
             | (vm3, Err e) => (vm3, Some (Err e))
             | (vm3, Ok _) =>
                 match mem_read pc vm3 with
                 | (vm4, Err e) => (vm4, Some (Err e))
                 | (vm4, Ok w) =>
                     match notify_plugins (Event.Command w) vm4 with
                     | (vm5, Err e) => (vm5, Some (Err e))
                     | (vm5, Ok _) =>
                         match Op_from_int (Z.shiftr w 12) with
                         | Err e => (vm5, Some (Err e))
                         | Ok op =>
                             match handler_for op (Command_new w) vm5 with
                             | (vm6, Err e) => (vm6, Some (Err e))
                             | (vm6, Ok _) => run_loop fuel vm6
                             end
                         end
                     end
                 end
             end
         end
     end) /\
  (forall vm vm' err,
     notify_plugins (Event.RunningGet (running vm)) vm = (vm', Err err) ->
     get_running vm = (vm', Err err)) /\
  (forall b vm vm' err,
     notify_plugins (Event.RunningSet b) vm = (vm', Err err) ->
     set_running b vm = (vm', Err err)) /\
  (forall r vm vm' err, r < NUM_REGISTERS ->
     notify_plugins (Event.RegGet r (registers vm r)) vm = (vm', Err err) ->
     reg_read r vm = (vm', Err err)) /\
  (forall r v vm vm' err,
     notify_plugins (Event.RegSet r v) vm = (vm', Err err) ->
     reg_write r v vm = (vm', Err err)) /\
  (forall pos vm vm' err, pos <> KB_STATUS_POS ->
     notify_plugins (Event.MemGet pos (memory vm pos)) vm = (vm', Err err) ->
     mem_read pos vm = (vm', Err err)) /\
  (forall e vm ps1 p ps2 vm1 ps1' vm2 err,
     plugins vm = Some (ps1 ++ p :: ps2) ->
     notify_round (notify_plugins_n 0) e ps1 (set_plugins None vm) = (vm1, Ok ps1') ->
     run_prog (notify_plugins_n 0) (handle_event p e) (deliver e vm1) = (vm2, Err err) ->
     notify_plugins e vm = (vm2, Err err)).
Proof.
  split; [exact run_loop_fuel_mono|split].
  - intros fuel vm p ps e Hp He.
    cbn [run_loop]; unfold get_running, get_running_via, bind, gets.
    unfold notify_plugins; cbn [notify_plugins_n]; rewrite Hp.
    cbn [notify_round]; unfold bind, modify; rewrite He; reflexivity.
  - split.
    { intros passive fuel vm Hrun; cbn zeta.
      rewrite (run_loop_step_passive passive fuel vm Hrun); cbn zeta.
      split; [intros vm2 e H; rewrite H; reflexivity|].
      split; [intros vm2 w e H1 H2; rewrite H1, H2; reflexivity|].
      intros vm2 w op vm3 e H1 H2 H3; rewrite H1, H2, H3; reflexivity. }
    split.
    { intros fuel vm; unfold run, bind.
      destruct (set_running true vm) as [vm1 [[]|e]]; [|reflexivity].
      destruct (reg_write RPC PC_START vm1) as [vm2 [[]|e]]; reflexivity. }
    split.
    { intros fuel vm; cbn [run_loop].
      destruct (get_running vm) as [vm1 [[|]|e]]; [|reflexivity|reflexivity].
      unfold run_iteration, bind.
      destruct (reg_read RPC vm1) as [vm2 [pc|e]]; [|reflexivity].
      destruct (reg_write RPC ((pc + 1) mod 65536) vm2) as [vm3 [[]|e]]; [|reflexivity].
      destruct (mem_read pc vm3) as [vm4 [w|e]]; [|reflexivity].
      rewrite run_command_dispatch; unfold bind, lift; cbn [get_bytes].
      destruct (notify_plugins (Event.Command w) vm4) as [vm5 [[]|e]]; [|reflexivity].
      destruct (Op_from_int (Z.shiftr w 12)) as [op|e]; [|reflexivity].
      destruct (handler_for op (Command_new w) vm5) as [vm6 [[]|e]]; reflexivity. }
    split.
    { intros vm vm' err H; unfold get_running, get_running_via, bind, gets.
      rewrite H; reflexivity. }
    split.
    { intros b vm vm' err H; unfold set_running, set_running_via, bind.
      rewrite H; reflexivity. }
    split.
    { intros r vm vm' err Hr H; unfold reg_read, reg_index_read, reg_index_read_via.
      replace (r <? NUM_REGISTERS) with true by (symmetry; apply Z.ltb_lt; exact Hr).
      unfold bind, gets; rewrite H; reflexivity. }
    split.
    { intros r v vm vm' err H; unfold reg_write, reg_index_write, reg_index_write_via, bind.
      rewrite H; reflexivity. }
    split.
    { intros pos vm vm' err Hpos H; unfold mem_read, mem_read_via.
      replace (pos =? KB_STATUS_POS) with false by (symmetry; apply Z.eqb_neq; exact Hpos).
      unfold bind, ret, gets; rewrite H; reflexivity. }
    intros e vm ps1 p ps2 vm1 ps1' vm2 err Hp H1 H2.
    assert (E : notify_plugins e vm =
      (ps' <- notify_round (notify_plugins_n 0) e (ps1 ++ p :: ps2) ;;
       modify (set_plugins (Some ps'))) (set_plugins None vm))
      by (unfold notify_plugins; cbn [notify_plugins_n]; rewrite Hp; reflexivity).
    rewrite E; unfold bind.
    rewrite (notify_round_fails_at _ e p ps2 vm2 err ps1 _ vm1 ps1' H1 H2).
    reflexivity.
Qed.

(** C1 (as the code does it): reading the keyboard status register polls
    the I/O capability; when a key is available it writes [1 << 15] into
    the status register, then reads the character, then writes it (low 16
    bits) into the data register, then reads the status register back and
    emits that read; with plugins that do not interfere it returns
    [1 << 15] and the next read of the data register returns the
    character.  When no key is available it writes 0 into the status
    register and returns 0. *)
Theorem mem_read_keyboard_status (passive : forall p e, handle_event p e = Ret p)
    vm ps :
  plugins vm = Some ps ->
  (forall io1 io2 ch,
     io_is_key_down (io_handle vm) = (io1, Ok true) ->
     io_getchar io1 = (io2, Ok ch) ->
     exists vm',
       mem_read KB_STATUS_POS vm = (vm', Ok (Z.shiftl 1 15)) /\
       memory vm' KB_STATUS_POS = Z.shiftl 1 15 /\
       memory vm' KB_DATA_POS = Z.land ch 0xFFFF /\
       delivered vm' = delivered vm
         ++ repeat (Event.KeyDownGet true) (length ps)
         ++ repeat (Event.MemSet KB_STATUS_POS (Z.shiftl 1 15)) (length ps)
         ++ repeat (Event.CharGet ch) (length ps)
         ++ repeat (Event.MemSet KB_DATA_POS (Z.land ch 0xFFFF)) (length ps)
         ++ repeat (Event.MemGet KB_STATUS_POS (Z.shiftl 1 15)) (length ps) /\
       snd (mem_read KB_DATA_POS vm') = Ok (Z.land ch 0xFFFF)) /\
  (forall io1,
     io_is_key_down (io_handle vm) = (io1, Ok false) ->
     exists vm',
       mem_read KB_STATUS_POS vm = (vm', Ok 0) /\
       memory vm' KB_STATUS_POS = 0 /\
       delivered vm' = delivered vm
         ++ repeat (Event.KeyDownGet false) (length ps)
         ++ repeat (Event.MemSet KB_STATUS_POS 0) (length ps)
         ++ repeat (Event.MemGet KB_STATUS_POS 0) (length ps)).
Proof.
  intros Hp.
  destruct vm as [m r run io pl dl]; cbn [plugins io_handle delivered] in *; subst pl.
  split.
  - intros io1 io2 ch H1 H2.
    unfold mem_read, mem_read_via, is_key_down_via, getchar_via, mem_write_via.
    rewrite Z.eqb_refl; unfold bind, gets, ret, modify.
    cbn [io_handle]; rewrite H1; cbn -[notify_plugins].
    rewrite (notify_passive passive); unfold emit, deliver_n, set_io_handle; cbn -[notify_plugins].
    rewrite (notify_passive passive); unfold emit, deliver_n, set_memory; cbn -[notify_plugins].
    rewrite H2.
    rewrite (notify_passive passive); unfold emit, deliver_n; cbn -[notify_plugins].
    rewrite (notify_passive passive); unfold emit, deliver_n; cbn -[notify_plugins].
    rewrite (notify_passive passive); unfold emit, deliver_n; cbn -[notify_plugins].
    eexists; split; [reflexivity|].
    cbn -[notify_plugins]; unfold upd; cbn -[notify_plugins].
    split; [reflexivity|]; split; [reflexivity|]; split.
    + rewrite <- !app_assoc; reflexivity.
    + unfold mem_read, mem_read_via, bind, gets, ret; cbn -[notify_plugins].
      rewrite (notify_passive passive); reflexivity.
  - intros io1 H1.
    unfold mem_read, mem_read_via, is_key_down_via, mem_write_via.
    rewrite Z.eqb_refl; unfold bind, gets, ret, modify.
    cbn [io_handle]; rewrite H1; cbn -[notify_plugins].
    rewrite (notify_passive passive); unfold emit, deliver_n, set_io_handle; cbn -[notify_plugins].
    rewrite (notify_passive passive); unfold emit, deliver_n, set_memory; cbn -[notify_plugins].
    rewrite (notify_passive passive); unfold emit, deliver_n; cbn -[notify_plugins].
    eexists; split; [reflexivity|].
    cbn -[notify_plugins]; unfold upd; cbn -[notify_plugins].
    split; [reflexivity|].
    rewrite <- !app_assoc; reflexivity.
Qed.

Lemma notify_ok_delivered e vm ps vm1 :
  plugins vm = Some ps -> notify_plugins e vm = (vm1, Ok tt) ->
  delivered vm1 = delivered vm ++ repeat e (length ps).
Proof.
  intros Hp Hn; pose proof (notify_plugins_spec 0 e vm ps Hp) as S.
  unfold notify_plugins in Hn; rewrite Hn in S; exact (proj2 S).
Qed.

(** Outside a round, each accessor that returns [Ok] has delivered its one
    event to every registered plugin and nothing else: writes carry the
    value written and have stored it, reads carry the value they return,
    the one held before the call. *)
Lemma accessors_deliver_once vm ps :
  plugins vm = Some ps ->
  (forall a v vm', mem_write a v vm = (vm', Ok tt) ->
     delivered vm' = delivered vm ++ repeat (Event.MemSet a v) (length ps) /\
     memory vm' a = v) /\
  (forall i v vm', reg_index_write i v vm = (vm', Ok tt) ->
     delivered vm' = delivered vm ++ repeat (Event.RegSet i v) (length ps) /\
     registers vm' i = v) /\
  (forall b vm', set_running b vm = (vm', Ok tt) ->
     delivered vm' = delivered vm ++ repeat (Event.RunningSet b) (length ps) /\
     running vm' = b) /\
  (forall a x vm', a <> KB_STATUS_POS -> mem_read a vm = (vm', Ok x) ->
     x = memory vm a /\
     delivered vm' = delivered vm ++ repeat (Event.MemGet a x) (length ps)) /\
  (forall i x vm', reg_index_read i vm = (vm', Ok x) ->
     x = registers vm i /\
     delivered vm' = delivered vm ++ repeat (Event.RegGet i x) (length ps)) /\
  (forall b vm', get_running vm = (vm', Ok b) ->
     b = running vm /\
     delivered vm' = delivered vm ++ repeat (Event.RunningGet b) (length ps)).
Proof.
  intros Hp; split; [|split; [|split; [|split; [|split]]]].
  - intros a v vm' H; unfold mem_write, mem_write_via, bind in H.
    destruct (notify_plugins _ vm) as [vm1 [[]|er]] eqn:E; [|discriminate].
    inversion H; subst; cbn; unfold upd; rewrite Z.eqb_refl.
    split; [exact (notify_ok_delivered _ _ _ _ Hp E) | reflexivity].
  - intros i v vm' H; unfold reg_index_write, reg_index_write_via, bind in H.
    destruct (notify_plugins _ vm) as [vm1 [[]|er]] eqn:E; [|discriminate].
    destruct (i <? NUM_REGISTERS); [|discriminate].
    inversion H; subst; cbn; unfold upd; rewrite Z.eqb_refl.
    split; [exact (notify_ok_delivered _ _ _ _ Hp E) | reflexivity].
  - intros b vm' H; unfold set_running, set_running_via, bind in H.
    destruct (notify_plugins _ vm) as [vm1 [[]|er]] eqn:E; [|discriminate].
    inversion H; subst; cbn.
    split; [exact (notify_ok_delivered _ _ _ _ Hp E) | reflexivity].
  - intros a x vm' Ha H; unfold mem_read, mem_read_via in H.
    replace (a =? KB_STATUS_POS) with false in H by (symmetry; apply Z.eqb_neq; exact Ha).
    unfold bind, gets, ret in H.
    destruct (notify_plugins _ vm) as [vm1 [[]|er]] eqn:E; [|discriminate].
    inversion H; subst; split; [reflexivity|].
    exact (notify_ok_delivered _ _ _ _ Hp E).
  - intros i x vm' H; unfold reg_index_read, reg_index_read_via in H.
    destruct (i <? NUM_REGISTERS); [|discriminate].
    unfold bind, gets, ret in H.
    destruct (notify_plugins _ vm) as [vm1 [[]|er]] eqn:E; [|discriminate].
    inversion H; subst; split; [reflexivity|].
    exact (notify_ok_delivered _ _ _ _ Hp E).
  - intros b vm' H; unfold get_running, get_running_via, bind, gets, ret in H.
    destruct (notify_plugins _ vm) as [vm1 [[]|er]] eqn:E; [|discriminate].
    inversion H; subst; split; [reflexivity|].
    exact (notify_ok_delivered _ _ _ _ Hp E).
Qed.

(** C3: outside a notification round, every accessor that returns [Ok]
    has handed exactly one event to each registered plugin.  A write
    ([mem_write], [reg_index_write] / [reg_write], [set_running]) carries
    the value about to be written and notifies before it stores it: a
    plugin that, handling the event, reads the location back observes the
    old value, and the new value is in place afterwards.  A read
    ([mem_read] of any address but the keyboard status register,
    [reg_index_read] / [reg_read], [get_running]) fetches first and its
    event carries the value it returns, the one held before the call. *)
Theorem accessors_notify_once vm ps :
  plugins vm = Some ps ->
  (forall a v vm', mem_write a v vm = (vm', Ok tt) ->
     delivered vm' = delivered vm ++ repeat (Event.MemSet a v) (length ps) /\
     memory vm' a = v) /\
  (forall i v vm', reg_write i v vm = (vm', Ok tt) ->
     delivered vm' = delivered vm ++ repeat (Event.RegSet i v) (length ps) /\
     registers vm' i = v) /\
  (forall b vm', set_running b vm = (vm', Ok tt) ->
     delivered vm' = delivered vm ++ repeat (Event.RunningSet b) (length ps) /\
     running vm' = b) /\
  (forall a x vm', a <> KB_STATUS_POS -> mem_read a vm = (vm', Ok x) ->
     x = memory vm a /\
     delivered vm' = delivered vm ++ repeat (Event.MemGet a x) (length ps)) /\
  (forall i x vm', reg_read i vm = (vm', Ok x) ->
     x = registers vm i /\
     delivered vm' = delivered vm ++ repeat (Event.RegGet i x) (length ps)) /\
  (forall b vm', get_running vm = (vm', Ok b) ->
     b = running vm /\
     delivered vm' = delivered vm ++ repeat (Event.RunningGet b) (length ps)) /\
  (forall p g a v, ps = [p] -> a <> KB_STATUS_POS ->
     handle_event p (Event.MemSet a v) = MemRead a (fun x => Ret (g x)) ->
     exists vm', mem_write a v vm = (vm', Ok tt) /\
       plugins vm' = Some [g (memory vm a)] /\ memory vm' a = v) /\
  (forall p g i v, ps = [p] -> 0 <= i < NUM_REGISTERS ->
     handle_event p (Event.RegSet i v) = RegRead i (fun x => Ret (g x)) ->
     exists vm', reg_write i v vm = (vm', Ok tt) /\
       plugins vm' = Some [g (registers vm i)] /\ registers vm' i = v) /\
  (forall p g b,  ps = [p] ->
     handle_event p (Event.RunningSet b) = GetRunning (fun x => Ret (g x)) ->
     exists vm', set_running b vm = (vm', Ok tt) /\
       plugins vm' = Some [g (running vm)] /\ running vm' = b).
Proof.
  intros Hp.
  destruct (accessors_deliver_once vm ps Hp) as (W1 & W2 & W3 & R1 & R2 & R3).
  split; [exact W1|]; split; [exact W2|]; split; [exact W3|].
  split; [exact R1|]; split; [exact R2|]; split; [exact R3|].
  destruct vm as [m r run io pl dl]; cbn [plugins] in Hp; subst pl.
  split; [|split].
  - intros p g a v -> Ha Hh.
    unfold mem_write, mem_write_via, notify_plugins, bind; cbn.
    rewrite Hh; cbn; unfold mem_read_via, bind, ret, gets, modify; cbn.
    rewrite (proj2 (Z.eqb_neq a KB_STATUS_POS) Ha); cbn.
    eexists; split; [reflexivity|]; cbn; unfold upd; rewrite Z.eqb_refl; auto.
  - intros p g i v -> Hi Hh.
    unfold reg_write, reg_index_write, reg_index_write_via, notify_plugins, bind; cbn.
    rewrite Hh; cbn; unfold reg_index_read_via, bind, ret, gets, modify; cbn.
    rewrite (proj2 (Z.ltb_lt i NUM_REGISTERS) (proj2 Hi)); cbn.
    eexists; split; [reflexivity|]; cbn; unfold upd; rewrite Z.eqb_refl; auto.
  - intros p g b -> Hh.
    unfold set_running, set_running_via, notify_plugins, bind; cbn.
    rewrite Hh; cbn; unfold get_running_via, bind, ret, gets, modify; cbn.
    eexists; split; [reflexivity|]; cbn; auto.
Qed.

(** ** Further properties of the code *)

(** *** Lemmas: [cli::read_program] *)

Lemma u8_range b : 0 <= u8 b < 256.
Proof. pose proof (Byte.to_N_bounded b); unfold u8; lia. Qed.

Lemma word_of_chunk_eq a : word_of_chunk a = 256 * u8 (fst a) + u8 (snd a).
Proof.
  unfold word_of_chunk.
  pose proof (u8_range (fst a)); pose proof (u8_range (snd a)).
  rewrite Z.shiftl_mul_pow2 by lia.
  change 0xFFFF with (Z.ones 16).
  rewrite Z.land_ones by lia.
  change (2 ^ 8) with 256; change (2 ^ 16) with 65536.
  rewrite (Z.mod_small (u8 (fst a) * 256)) by lia.
  rewrite Z.mod_small by lia.
  lia.
Qed.

Lemma decode_program_cons a0 a1 rest :
  decode_program (a0 :: a1 :: rest) = word_of_chunk (a0, a1) :: decode_program rest.
Proof. reflexivity. Qed.

Lemma encode_program_cons w ws :
  encode_program (w :: ws) = byte_of (w / 256) :: byte_of (w mod 256) :: encode_program ws.
Proof. reflexivity. Qed.

Lemma u8_byte_of n : 0 <= n < 256 -> u8 (byte_of n) = n.
Proof.
  intros Hn; unfold byte_of.
  destruct (Byte.of_N (Z.to_N n)) as [b|] eqn:E.
  - apply Byte.to_of_N in E; unfold u8; rewrite E; apply Z2N.id; lia.
  - apply Byte.of_N_None_iff in E; lia.
Qed.

Lemma decode_program_length_aux n : forall bytes, (length bytes <= n)%nat ->
  length (decode_program bytes) = (length bytes / 2)%nat.
Proof.
  induction n as [|n IH]; intros [|a0 [|a1 rest]] H; cbn [length] in H;
    try reflexivity; try lia.
  rewrite decode_program_cons; cbn [length]; rewrite IH by lia.
  replace (S (S (length rest))) with (length rest + 1 * 2)%nat by lia.
  rewrite Nat.div_add by lia; lia.
Qed.

Lemma decode_program_length bytes :
  length (decode_program bytes) = (length bytes / 2)%nat.
Proof. exact (decode_program_length_aux (length bytes) bytes (le_n _)). Qed.

Lemma decode_program_nth_aux n : forall bytes i, (length bytes <= n)%nat ->
  (i < length bytes / 2)%nat ->
  nth i (decode_program bytes) 0 =
  256 * u8 (nth (2 * i) bytes Byte.x00) + u8 (nth (2 * i + 1) bytes Byte.x00).
Proof.
  induction n as [|n IH]; intros [|a0 [|a1 rest]] i H Hi; cbn [length] in H, Hi;
    try (cbn in Hi; lia).
  rewrite decode_program_cons.
  destruct i as [|j].
  - cbn [nth]; rewrite word_of_chunk_eq; reflexivity.
  - replace (2 * S j)%nat with (S (S (2 * j))) by lia.
    replace (S (S (2 * j)) + 1)%nat with (S (S (2 * j + 1))) by lia.
    cbn [nth]; apply IH; [lia|].
    replace (S (S (length rest))) with (length rest + 1 * 2)%nat in Hi by lia.
    rewrite Nat.div_add in Hi by lia; lia.
Qed.

Lemma decode_program_nth bytes i :
  (i < length bytes / 2)%nat ->
  nth i (decode_program bytes) 0 =
  256 * u8 (nth (2 * i) bytes Byte.x00) + u8 (nth (2 * i + 1) bytes Byte.x00).
Proof. exact (decode_program_nth_aux (length bytes) bytes i (le_n _)). Qed.

Lemma decode_program_u16 bytes : Forall (fun w => 0 <= w < 65536) (decode_program bytes).
Proof.
  unfold decode_program; apply Forall_map, Forall_forall; intros a _.
  rewrite word_of_chunk_eq; pose proof (u8_range (fst a)); pose proof (u8_range (snd a)); lia.
Qed.

Lemma decode_program_odd_aux b n : forall bytes, (length bytes <= n)%nat ->
  Nat.even (length bytes) = true -> decode_program (bytes ++ [b]) = decode_program bytes.
Proof.
  induction n as [|n IH]; intros [|a0 [|a1 rest]] H He; cbn [length] in H;
    try reflexivity; try lia; try discriminate.
  cbn [app]; rewrite !decode_program_cons, IH; [reflexivity | lia | exact He].
Qed.

(** *** Lemmas: the I/O accessors with plugins that do not interfere *)

Section Passive2.

Hypothesis passive : forall p e, handle_event p e = Ret p.

Lemma is_key_down_passive vm :
  is_key_down vm =
  match io_is_key_down (io_handle vm) with
  | (io1, Ok b) => (emit (Event.KeyDownGet b) (set_io_handle io1 vm), Ok b)
  | (io1, Err e) => (set_io_handle io1 vm, Err e)
  end.
Proof.
  unfold is_key_down, is_key_down_via, bind, ret.
  destruct (io_is_key_down (io_handle vm)) as [io1 [b|e]]; [|reflexivity].
  rewrite (notify_passive passive); reflexivity.
Qed.

Lemma getchar_passive vm :
  getchar vm =
  match io_getchar (io_handle vm) with
  | (io1, Ok ch) => (emit (Event.CharGet ch) (set_io_handle io1 vm), Ok ch)
  | (io1, Err e) => (set_io_handle io1 vm, Err e)
  end.
Proof.
  unfold getchar, getchar_via, bind, ret.
  destruct (io_getchar (io_handle vm)) as [io1 [ch|e]]; [|reflexivity].
  rewrite (notify_passive passive); reflexivity.
Qed.

End Passive2.

Lemma emit_io_handle e vm : io_handle (emit e vm) = io_handle vm.
Proof. apply (emit_fields e vm). Qed.

(** [mem_read] of the keyboard status register, written with the
    top-level accessors. *)
Lemma mem_read_status_unfold vm :
  mem_read KB_STATUS_POS vm =
  ((b <- is_key_down ;;
    if b then
      mem_write KB_STATUS_POS (Z.shiftl 1 15) ;;
      ch <- getchar ;;
      mem_write KB_DATA_POS (Z.land ch 0xFFFF)
    else mem_write KB_STATUS_POS 0) ;;
   val <- gets (fun vm => memory vm KB_STATUS_POS) ;;
   notify_plugins (Event.MemGet KB_STATUS_POS val) ;;
   ret val) vm.
Proof. reflexivity. Qed.

(** A notification round whose first plugin fails: the event reached that
    plugin only, the error is returned and the registry stays detached. *)
Lemma notify_first_fails e vm p ps err :
  plugins vm = Some (p :: ps) -> handle_event p e = Fail err ->
  notify_plugins e vm = (deliver e (set_plugins None vm), Err err).
Proof.
  intros Hp Hh; unfold notify_plugins; cbn [notify_plugins_n]; rewrite Hp.
  cbn [notify_round]; unfold bind, modify; rewrite Hh; reflexivity.
Qed.

(** *** Extra properties *)

(** [read_program] decodes the file's bytes as big-endian 16-bit words:
    [length bytes / 2] words, word [i] being
    [256 * bytes[2i] + bytes[2i+1]], each a 16-bit value; an odd last byte
    is ignored. *)
Theorem decode_program_big_endian bytes :
  length (decode_program bytes) = (length bytes / 2)%nat /\
  (forall i, (i < length bytes / 2)%nat ->
     nth i (decode_program bytes) 0 =
     256 * u8 (nth (2 * i) bytes Byte.x00) + u8 (nth (2 * i + 1) bytes Byte.x00)) /\
  Forall (fun w => 0 <= w < 65536) (decode_program bytes) /\
  (forall b, Nat.even (length bytes) = true ->
     decode_program (bytes ++ [b]) = decode_program bytes).
Proof.
  split; [apply decode_program_length|].
  split; [apply decode_program_nth|].
  split; [apply decode_program_u16|].
  intros b He; exact (decode_program_odd_aux b (length bytes) bytes (le_n _) He).
Qed.

(** Reading back the big-endian encoding of a list of 16-bit words gives
    the list. *)
Theorem decode_encode_program ws :
  Forall (fun w => 0 <= w < 65536) ws -> decode_program (encode_program ws) = ws.
Proof.
  induction 1 as [|w ws Hw _ IH]; [reflexivity|].
  rewrite encode_program_cons, decode_program_cons, IH, word_of_chunk_eq; cbn [fst snd].
  rewrite !u8_byte_of.
  - f_equal; pose proof (Z.div_mod w 256); lia.
  - apply Z.mod_pos_bound; lia.
  - split; [apply Z.div_pos | apply Z.div_lt_upper_bound]; lia.
Qed.

(** A program read from a file is loaded as the code of [main] would: with
    [n = length bytes / 2] words, more than [65536 - 0x3000] is refused
    with [ProgramSize] and the VM unchanged; otherwise (plugins not
    interfering) the load succeeds and address [0x3000 + i] holds
    [256 * bytes[2i] + bytes[2i+1]]. *)
Theorem read_program_then_load (passive : forall p e, handle_event p e = Ret p)
    fs_read path bytes vm :
  fs_read path = Some bytes ->
  let n := Z.of_nat (length bytes / 2) in
  read_program fs_read path = Ok (decode_program bytes) /\
  (n > MEMORY_SIZE - PC_START ->
     load_program (decode_program bytes) vm =
     (vm, Err (ProgramSize n (MEMORY_SIZE - PC_START)))) /\
  (n <= MEMORY_SIZE - PC_START ->
     snd (load_program (decode_program bytes) vm) = Ok tt /\
     forall i, (i < length bytes / 2)%nat ->
       memory (fst (load_program (decode_program bytes) vm)) (PC_START + Z.of_nat i) =
       256 * u8 (nth (2 * i) bytes Byte.x00) + u8 (nth (2 * i + 1) bytes Byte.x00)).
Proof.
  intros Hfs; cbv zeta.
  unfold read_program; rewrite Hfs; split; [reflexivity|].
  unfold load_program; rewrite decode_program_length.
  split.
  - intros H.
    replace (Z.of_nat (length bytes / 2) >? MEMORY_SIZE - PC_START) with true
      by (symmetry; apply Z.gtb_lt; lia).
    reflexivity.
  - intros H.
    replace (Z.of_nat (length bytes / 2) >? MEMORY_SIZE - PC_START) with false
      by (rewrite Z.gtb_ltb; symmetry; apply Z.ltb_ge; lia).
    pose proof (load_words_passive passive (decode_program bytes) 0 vm) as L.
    destruct (load_words 0 (decode_program bytes) vm) as [vm' r].
    destruct L as (Hr & _ & _ & _ & Hin & _).
    split; [exact Hr|].
    intros i Hi; cbn [fst].
    rewrite <- decode_program_nth by exact Hi.
    rewrite <- (Z.add_0_r PC_START).
    apply Hin; rewrite decode_program_length; exact Hi.
Qed.

(** With plugins that do not interfere, a value written to any address but
    the keyboard status register is read back, and no other address
    changes. *)
Theorem mem_write_then_read (passive : forall p e, handle_event p e = Ret p) a v vm :
  a <> KB_STATUS_POS ->
  let vm1 := fst (mem_write a v vm) in
  snd (mem_write a v vm) = Ok tt /\
  mem_read a vm1 = (emit (Event.MemGet a v) vm1, Ok v) /\
  (forall b, b <> a -> memory vm1 b = memory vm b).
Proof.
  intros Ha; cbv zeta.
  rewrite (mem_write_passive passive); cbn [fst snd].
  split; [reflexivity|]; split.
  - rewrite (mem_read_plain_passive passive _ _ Ha).
    cbn [memory set_memory]; unfold upd at 1 3; rewrite Z.eqb_refl; reflexivity.
  - intros b Hb; cbn [memory set_memory]; unfold upd.
    rewrite (proj2 (Z.eqb_neq b a) Hb); first [reflexivity | apply emit_memory].
Qed.

(** With plugins that do not interfere, a value written to a register is
    read back, and no other register changes. *)
Theorem reg_write_then_read (passive : forall p e, handle_event p e = Ret p) i v vm :
  0 <= i < NUM_REGISTERS ->
  let vm1 := fst (reg_index_write i v vm) in
  snd (reg_index_write i v vm) = Ok tt /\
  reg_index_read i vm1 = (emit (Event.RegGet i v) vm1, Ok v) /\
  (forall j, j <> i -> registers vm1 j = registers vm j).
Proof.
  intros Hi; cbv zeta.
  rewrite (reg_index_write_passive passive _ _ _ Hi); cbn [fst snd].
  split; [reflexivity|]; split.
  - rewrite (reg_index_read_passive passive _ _ Hi).
    cbn [registers set_registers]; unfold upd at 1 3; rewrite Z.eqb_refl; reflexivity.
  - intros j Hj; cbn [registers set_registers]; unfold upd.
    rewrite (proj2 (Z.eqb_neq j i) Hj); first [reflexivity | apply emit_registers].
Qed.

(** A register index past the register file ([registers[index]] out of
    bounds) panics: a read panics before any event and changes nothing; a
    write first hands its [RegSet] event to the plugins, then panics
    without writing any register. *)
Theorem register_index_out_of_range (passive : forall p e, handle_event p e = Ret p)
    i v vm :
  NUM_REGISTERS <= i ->
  reg_index_read i vm = (vm, Err (Panic "index out of bounds")) /\
  reg_index_write i v vm = (emit (Event.RegSet i v) vm, Err (Panic "index out of bounds")).
Proof.
  intros Hi.
  assert (Hf : (i <? NUM_REGISTERS) = false) by (apply Z.ltb_ge; exact Hi).
  split.
  - unfold reg_index_read, reg_index_read_via; rewrite Hf; reflexivity.
  - unfold reg_index_write, reg_index_write_via, bind; rewrite (notify_passive passive), Hf.
    reflexivity.
Qed.

(** [update_flags] takes its index [as u8]: [update_flags i] is
    [update_flags (i mod 256)], and when that is past the register file it
    panics before any event, leaving the VM (the condition register
    included) unchanged. *)
Theorem update_flags_index_as_u8 i vm :
  update_flags i vm = update_flags (i mod 256) vm /\
  (NUM_REGISTERS <= i mod 256 ->
     update_flags i vm = (vm, Err (Panic "index out of bounds"))).
Proof.
  unfold update_flags; rewrite Zmod_mod; split; [reflexivity|].
  intros H; unfold reg_index_read, reg_index_read_via, bind.
  replace (i mod 256 <? NUM_REGISTERS) with false by (symmetry; apply Z.ltb_ge; exact H).
  reflexivity.
Qed.

(** A failure of the I/O capability is returned before any event: a
    failing [getchar] or key poll hands nothing to the plugins and changes
    nothing but the I/O handle, and so does a read of the keyboard status
    register whose poll fails (nothing is written to memory). *)
Theorem io_failure_no_event vm io' e :
  (io_getchar (io_handle vm) = (io', Err e) ->
     getchar vm = (set_io_handle io' vm, Err e)) /\
  (io_is_key_down (io_handle vm) = (io', Err e) ->
     is_key_down vm = (set_io_handle io' vm, Err e) /\
     mem_read KB_STATUS_POS vm = (set_io_handle io' vm, Err e)).
Proof.
  split.
  - intros H; unfold getchar, getchar_via, bind; rewrite H; reflexivity.
  - intros H.
    assert (K : is_key_down vm = (set_io_handle io' vm, Err e))
      by (unfold is_key_down, is_key_down_via, bind; rewrite H; reflexivity).
    split; [exact K|].
    rewrite mem_read_status_unfold; unfold bind at 1 2; rewrite K; reflexivity.
Qed.

(** [putchar] notifies before it writes: a plugin that fails on the
    [CharPut] event stops it before the I/O capability is called (the I/O
    handle is unchanged and later plugins are not called); with plugins
    that do not interfere, the event is delivered and then the I/O
    capability's answer, error included, is returned. *)
Theorem putchar_notifies_before_output ch vm :
  (forall p ps err, plugins vm = Some (p :: ps) ->
     handle_event p (Event.CharPut ch) = Fail err ->
     putchar ch vm = (deliver (Event.CharPut ch) (set_plugins None vm), Err err) /\
     io_handle (fst (putchar ch vm)) = io_handle vm) /\
  ((forall p e, handle_event p e = Ret p) ->
     putchar ch vm =
     (set_io_handle (fst (io_putchar (io_handle vm) ch)) (emit (Event.CharPut ch) vm),
      snd (io_putchar (io_handle vm) ch))).
Proof.
  split.
  - intros p ps err Hp Hh.
    assert (P : putchar ch vm = (deliver (Event.CharPut ch) (set_plugins None vm), Err err))
      by (unfold putchar, putchar_via, bind; rewrite (notify_first_fails _ _ p ps err Hp Hh);
          reflexivity).
    split; [exact P|]; rewrite P; reflexivity.
  - intros passive; unfold putchar, putchar_via, bind; rewrite (notify_passive passive).
    rewrite emit_io_handle; destruct (io_putchar (io_handle vm) ch); reflexivity.
Qed.

(** When the key poll reports a key but reading the character fails, the
    read of the keyboard status register returns that error after the
    status register was already set to [1 << 15]; the data register is
    left as it was (nothing is rolled back). *)
Theorem mem_read_status_getchar_failure (passive : forall p e, handle_event p e = Ret p)
    vm io1 io2 e :
  io_is_key_down (io_handle vm) = (io1, Ok true) ->
  io_getchar io1 = (io2, Err e) ->
  exists vm',
    mem_read KB_STATUS_POS vm = (vm', Err e) /\
    memory vm' KB_STATUS_POS = Z.shiftl 1 15 /\
    memory vm' KB_DATA_POS = memory vm KB_DATA_POS /\
    io_handle vm' = io2.
Proof.
  intros H1 H2.
  rewrite mem_read_status_unfold; unfold bind at 1 2.
  rewrite (is_key_down_passive passive), H1.
  unfold bind at 1; rewrite (mem_write_passive passive).
  unfold bind at 1; rewrite (getchar_passive passive).
  cbn [io_handle set_memory]; rewrite !emit_io_handle; cbn [io_handle set_io_handle].
  rewrite H2.
  eexists; split; [reflexivity|].
  cbn [memory set_io_handle set_memory]; unfold upd; rewrite emit_memory.
  cbn [memory set_io_handle].
  split; [reflexivity|]; split; [reflexivity|reflexivity].
Qed.

(** With plugins that do not interfere, a successful read of the keyboard
    status register returns [0] or [1 << 15], the value the register holds
    afterwards, whatever had been stored there. *)
Theorem mem_read_status_value (passive : forall p e, handle_event p e = Ret p) vm vm' x :
  mem_read KB_STATUS_POS vm = (vm', Ok x) ->
  (x = 0 \/ x = Z.shiftl 1 15) /\ memory vm' KB_STATUS_POS = x.
Proof.
  rewrite mem_read_status_unfold; unfold bind at 1 2.
  rewrite (is_key_down_passive passive).
  destruct (io_is_key_down (io_handle vm)) as [io1 [[|]|er]]; [| |discriminate].
  - unfold bind at 1; rewrite (mem_write_passive passive).
    unfold bind at 1; rewrite (getchar_passive passive).
    cbn [io_handle set_memory]; rewrite !emit_io_handle; cbn [io_handle set_io_handle].
    destruct (io_getchar io1) as [io2 [ch|er]]; [|discriminate].
    unfold bind; rewrite (mem_write_passive passive); cbn [gets].
    rewrite (notify_passive passive); cbn [ret].
    intros H; inversion H; subst; clear H.
    repeat progress (rewrite ?emit_memory; cbn [memory set_memory set_io_handle]).
    unfold upd.
    replace (KB_STATUS_POS =? KB_DATA_POS) with false by reflexivity.
    rewrite Z.eqb_refl.
    split; [right; reflexivity | reflexivity].
  - unfold bind; rewrite (mem_write_passive passive); cbn [gets].
    rewrite (notify_passive passive); cbn [ret].
    intros H; inversion H; subst; clear H.
    repeat progress (rewrite ?emit_memory; cbn [memory set_memory set_io_handle]).
    unfold upd; rewrite Z.eqb_refl.
    split; [left; reflexivity | reflexivity].
Qed.

(** A plugin error ends the round at the failing plugin and leaves the
    registry detached for good: from then on [notify_plugins] does
    nothing, [add_plugin] does nothing, and no sequence of accesses hands
    an event to any plugin. *)
Theorem plugin_failure_detaches_registry e vm ps vm' err :
  plugins vm = Some ps ->
  notify_plugins e vm = (vm', Err err) ->
  plugins vm' = None /\
  (exists k, (k <= length ps)%nat /\ delivered vm' = delivered vm ++ repeat e k) /\
  (forall e2, notify_plugins e2 vm' = (vm', Ok tt)) /\
  (forall q, add_plugin q vm' = vm') /\
  (forall pr, plugins (fst (run_prog notify_plugins pr vm')) = None /\
              delivered (fst (run_prog notify_plugins pr vm')) = delivered vm').
Proof.
  intros Hp Hn.
  pose proof (notify_plugins_spec 0 e vm ps Hp) as S.
  unfold notify_plugins in Hn; rewrite Hn in S.
  destruct S as [Hnone Hk].
  split; [exact Hnone|]; split; [exact Hk|].
  split; [intros e2; exact (notify_detached 1 e2 vm' Hnone)|].
  split; [intros q; unfold add_plugin; rewrite Hnone; reflexivity|].
  intros pr; exact (run_prog_detached 1 pr vm' Hnone).
Qed.

(** Within a round the plugins run in registration order, each on the VM
    as the previous ones left it: a register written by the first plugin
    is read by the second, and neither access is notified. *)
Theorem notify_plugins_in_order e vm p1 p2 p1' g i v :
  plugins vm = Some [p1; p2] -> 0 <= i < NUM_REGISTERS ->
  handle_event p1 e = RegWrite i v (Ret p1') ->
  handle_event p2 e = RegRead i (fun x => Ret (g x)) ->
  exists vm',
    notify_plugins e vm = (vm', Ok tt) /\
    plugins vm' = Some [p1'; g v] /\ registers vm' i = v /\
    delivered vm' = delivered vm ++ [e; e].
Proof.
  intros Hp Hi H1 H2.
  assert (Hlt : (i <? NUM_REGISTERS) = true) by (apply Z.ltb_lt; lia).
  destruct vm as [m r run io pl dl]; cbn [plugins] in Hp; subst pl.
  unfold notify_plugins; cbn [notify_plugins_n plugins].
  cbn [notify_round]; unfold bind, modify; rewrite H1.
  cbn; unfold reg_index_write_via, bind, modify; cbn; rewrite Hlt; cbn.
  rewrite H2; cbn; unfold reg_index_read_via, bind, gets, ret; cbn; rewrite Hlt; cbn.
  eexists; split; [reflexivity|].
  cbn; unfold upd; rewrite Z.eqb_refl.
  split; [reflexivity|]; split; [reflexivity|].
  rewrite <- app_assoc; reflexivity.
Qed.

End VM.

Arguments Ret {Plugin} p.
Arguments Fail {Plugin} e.
Arguments MemRead {Plugin} pos k.
Arguments MemWrite {Plugin} pos val k.
Arguments RegRead {Plugin} index k.
Arguments RegWrite {Plugin} index val k.
Arguments GetRunning {Plugin} k.
Arguments SetRunning {Plugin} val k.
Arguments PutChar {Plugin} ch k.
Arguments GetChar {Plugin} k.
Arguments KeyDown {Plugin} k.
Arguments AddPlugin {Plugin} q k.
Arguments mkVM {IO Plugin}.
Arguments memory {IO Plugin} _ _.
Arguments registers {IO Plugin} _ _.
Arguments running {IO Plugin} _.
Arguments io_handle {IO Plugin} _.
Arguments plugins {IO Plugin} _.
Arguments delivered {IO Plugin} _.

(** ** A concrete I/O handle and concrete plugins *)

Module Instances.

(** A scripted I/O handle: answers to the key poll, the characters to be
    read, and the characters written so far. *)
Record TestIO : Type := mkTestIO {
  keydown_responses : list bool;
  key_presses : list Z;
  outputs : list Z
}.

Definition test_is_key_down (io : TestIO) : TestIO * result bool :=
  match keydown_responses io with
  | b :: rest => (mkTestIO rest (key_presses io) (outputs io), Ok b)
  | [] => (io, Ok false)
  end.

Definition test_getchar (io : TestIO) : TestIO * result Z :=
  match key_presses io with
  | c :: rest => (mkTestIO (keydown_responses io) rest (outputs io), Ok c)
  | [] => (io, Err (IOFailure 0))
  end.

Definition test_putchar (io : TestIO) (ch : Z) : TestIO * result unit :=
  (mkTestIO (keydown_responses io) (key_presses io) (outputs io ++ [ch]), Ok tt).

(** A plugin that only listens. *)
Definition silent (p : unit) (e : Event) : Prog unit := Ret p.

(** A plugin that, on a write of register 0, writes register 1. *)
Definition writer (p : unit) (e : Event) : Prog unit :=
  match e with
  | Event.RegSet 0 v => RegWrite 1 (v + 1) (Ret p)
  | _ => Ret p
  end.

(** A plugin that reads the location of a write back and remembers it. *)
Definition spy (p : list Z) (e : Event) : Prog (list Z) :=
  match e with
  | Event.MemSet a _ => MemRead a (fun x => Ret (x :: p))
  | _ => Ret p
  end.

(** Two plugins, told apart by their state: plugin [0] writes 5 into
    register 0, any other plugin reads register 0 and keeps the value. *)
Definition ordered (p : Z) (e : Event) : Prog Z :=
  if p =? 0 then RegWrite 0 5 (Ret 0) else RegRead 0 (fun x => Ret x).

(** A plugin whose handler always fails. *)
Definition failing (p : unit) (e : Event) : Prog unit := Fail (PluginFailure 1).

Definition nop_handler (c : Command) : ST (VM TestIO unit) unit := ret tt.

Definition halt_handler (c : Command) : ST (VM TestIO unit) unit :=
  set_running TestIO test_is_key_down test_getchar test_putchar unit silent false.

Definition io_none : TestIO := mkTestIO [] [] [].
Definition io_q : TestIO := mkTestIO [true] [113] [].
Definition io_k : TestIO := mkTestIO [true] [] [].

Definition vm_with (P : Type) (ps : list P) (io : TestIO) : VM TestIO P :=
  mkVM (fun _ => 0) (fun _ => 0) false io (Some ps) [].

End Instances.
Import Instances.

(** ** Witnesses and counterexamples *)

Lemma notify_plugins_no_nested_events_witness :
  let vm' := fst (notify_plugins TestIO test_is_key_down test_getchar test_putchar
                    unit writer (Event.RegSet 0 5) (vm_with unit [tt] io_none)) in
  delivered vm' = [Event.RegSet 0 5] /\ registers vm' 1 = 6.
Proof.
  cbv zeta.
  destruct (notify_plugins_no_nested_events TestIO test_is_key_down test_getchar
              test_putchar unit writer (Event.RegSet 0 5) (vm_with unit [tt] io_none)
              [tt] eq_refl) as (_ & _ & _ & _ & _ & _ & _ & _ & _ & _ & _ & _ & Hok).
  destruct (Hok (fst (notify_plugins TestIO test_is_key_down test_getchar
                        test_putchar unit writer (Event.RegSet 0 5)
                        (vm_with unit [tt] io_none)))
              ltac:(reflexivity)) as (Hd & _).
  split; [rewrite Hd; reflexivity | reflexivity].
Defined.

Lemma accessors_notify_once_witness :
  delivered (fst (mem_write TestIO test_is_key_down test_getchar test_putchar
                    unit silent 5 7 (vm_with unit [tt] io_none))) = [Event.MemSet 5 7].
Proof.
  destruct (accessors_notify_once TestIO test_is_key_down test_getchar test_putchar
              unit silent (vm_with unit [tt] io_none) [tt] eq_refl) as (W1 & _).
  destruct (W1 5 7 _ ltac:(reflexivity)) as [Hd _].
  exact Hd.
Defined.

Lemma run_fetch_execute_cycle_witness :
  let vm_h := mkVM (upd (fun _ => 0) PC_START 0xF025) (fun _ => 0) false io_none
                (Some [tt]) [] in
  let r := run TestIO test_is_key_down test_getchar test_putchar unit silent
             nop_handler nop_handler nop_handler nop_handler nop_handler nop_handler
             nop_handler nop_handler nop_handler nop_handler nop_handler nop_handler
             nop_handler nop_handler nop_handler halt_handler 3 vm_h in
  snd r = Some (Ok tt) /\ running (fst r) = false.
Proof.
  cbv zeta.
  destruct (run_fetch_execute_cycle TestIO test_is_key_down test_getchar test_putchar
              unit silent nop_handler nop_handler nop_handler nop_handler nop_handler
              nop_handler nop_handler nop_handler nop_handler nop_handler nop_handler
              nop_handler nop_handler nop_handler nop_handler halt_handler
              (fun _ _ => eq_refl)) as (P1 & _ & _ & _ & P4).
  rewrite P1.
  match goal with
  | |- snd ?t = _ /\ _ =>
      assert (Hs : snd t = Some (Ok tt)) by (vm_compute; reflexivity);
      destruct t as [vm' o] eqn:E
  end.
  cbn in Hs |- *; subst o.
  split; [reflexivity | exact (P4 _ _ _ E)].
Defined.

Lemma update_flags_sets_one_flag_witness :
  let vm := mkVM (fun _ => 0) (upd (fun _ => 0) 0 0x8111) false io_none (Some [tt]) [] in
  registers (fst (update_flags TestIO test_is_key_down test_getchar test_putchar unit
                    silent 0 vm)) RCond = FL_NEG.
Proof.
  cbv zeta.
  destruct (update_flags_sets_one_flag TestIO test_is_key_down test_getchar test_putchar
              unit silent 0
              (mkVM (fun _ => 0) (upd (fun _ => 0) 0 0x8111) false io_none (Some [tt]) [])
              ltac:(lia) ltac:(cbn; lia)) as [H1 _].
  match type of H1 with
  | forall vm' : _, ?t = _ -> _ =>
      assert (E : t = (fst t, Ok tt)) by (apply injective_projections; [reflexivity | vm_compute; reflexivity]);
      destruct (H1 _ E) as [H _]
  end.
  rewrite H; vm_compute; reflexivity.
Defined.

Lemma load_program_too_large_witness :
  snd (load_program TestIO test_is_key_down test_getchar test_putchar unit silent
         (repeat 0 (Z.to_nat 53249)) (vm_with unit [tt] io_none))
  = Err (ProgramSize 53249 53248).
Proof.
  rewrite (load_program_too_large TestIO test_is_key_down test_getchar test_putchar
             unit silent (repeat 0 (Z.to_nat 53249)) (vm_with unit [tt] io_none)
             ltac:(rewrite repeat_length; vm_compute; reflexivity)).
  rewrite repeat_length; vm_compute; reflexivity.
Defined.

Lemma load_program_fits_witness :
  memory (fst (load_program TestIO test_is_key_down test_getchar test_putchar unit silent
                 [1; 2; 3] (vm_with unit [tt] io_none))) (PC_START + 1) = 2.
Proof.
  pose proof (load_program_fits TestIO test_is_key_down test_getchar test_putchar
                unit silent (fun _ _ => eq_refl) [1; 2; 3] (vm_with unit [tt] io_none)
                ltac:(cbn; lia)) as H.
  destruct (load_program _ _ _ _ _ _ _ _) as [vm' r].
  destruct H as (_ & Hin & _).
  exact (Hin 1%nat ltac:(cbn; lia)).
Defined.

Lemma mem_read_keyboard_status_witness :
  exists vm',
    mem_read TestIO test_is_key_down test_getchar test_putchar unit silent
      KB_STATUS_POS (vm_with unit [tt] io_q) = (vm', Ok (Z.shiftl 1 15)) /\
    memory vm' KB_DATA_POS = 113.
Proof.
  destruct (mem_read_keyboard_status TestIO test_is_key_down test_getchar test_putchar
              unit silent (fun _ _ => eq_refl) (vm_with unit [tt] io_q) [tt] eq_refl)
    as [H1 _].
  destruct (H1 (mkTestIO [] [113] []) io_none 113 ltac:(reflexivity) ltac:(reflexivity))
    as (vm' & E & _ & Hd & _).
  exists vm'; split; [exact E | exact Hd].
Defined.

(** C1 as stated puts the write of the data register before the write of
    the status register.  With a key ['q'] (113) pending and one listening
    plugin, the events of a read of the status register show the code's
    order: poll, status write, character read, data write, status read. *)
Lemma mem_read_status_written_before_data :
  delivered (fst (mem_read TestIO test_is_key_down test_getchar test_putchar unit silent
                    KB_STATUS_POS (vm_with unit [tt] io_q))) =
  [Event.KeyDownGet true; Event.MemSet KB_STATUS_POS 32768; Event.CharGet 113;
   Event.MemSet KB_DATA_POS 113; Event.MemGet KB_STATUS_POS 32768].
Proof. vm_compute. reflexivity. Qed.

(** ** Witnesses of the further properties *)

Lemma decode_encode_program_witness :
  decode_program (encode_program [0x3000; 0xF025]) = [0x3000; 0xF025].
Proof.
  apply decode_encode_program.
  apply Forall_forall; intros x Hx; cbn in Hx; lia.
Defined.

Lemma read_program_then_load_witness :
  memory (fst (load_program TestIO test_is_key_down test_getchar test_putchar unit silent
                 (decode_program [Byte.x30; Byte.x00; Byte.xf0; Byte.x25])
                 (vm_with unit [tt] io_none))) (PC_START + 1) = 0xF025.
Proof.
  destruct (read_program_then_load TestIO test_is_key_down test_getchar test_putchar
              unit silent (fun _ _ => eq_refl)
              (fun _ => Some [Byte.x30; Byte.x00; Byte.xf0; Byte.x25]) "prog.obj"
              [Byte.x30; Byte.x00; Byte.xf0; Byte.x25] (vm_with unit [tt] io_none)
              eq_refl) as (_ & _ & H3).
  destruct (H3 ltac:(cbn; lia)) as [_ Hm].
  exact (Hm 1%nat ltac:(cbn; lia)).
Defined.

Lemma mem_write_then_read_witness :
  snd (mem_read TestIO test_is_key_down test_getchar test_putchar unit silent 0x3000
         (fst (mem_write TestIO test_is_key_down test_getchar test_putchar unit silent
                 0x3000 7 (vm_with unit [tt] io_none)))) = Ok 7.
Proof.
  destruct (mem_write_then_read TestIO test_is_key_down test_getchar test_putchar unit
              silent (fun _ _ => eq_refl) 0x3000 7 (vm_with unit [tt] io_none)
              ltac:(unfold KB_STATUS_POS; lia)) as (_ & H & _).
  rewrite H; reflexivity.
Defined.

Lemma reg_write_then_read_witness :
  snd (reg_index_read TestIO test_is_key_down test_getchar test_putchar unit silent 3
         (fst (reg_index_write TestIO test_is_key_down test_getchar test_putchar unit
                 silent 3 7 (vm_with unit [tt] io_none)))) = Ok 7.
Proof.
  destruct (reg_write_then_read TestIO test_is_key_down test_getchar test_putchar unit
              silent (fun _ _ => eq_refl) 3 7 (vm_with unit [tt] io_none)
              ltac:(unfold NUM_REGISTERS; lia)) as (_ & H & _).
  rewrite H; reflexivity.
Defined.

Lemma register_index_out_of_range_witness :
  snd (reg_index_write TestIO test_is_key_down test_getchar test_putchar unit silent
         12 7 (vm_with unit [tt] io_none)) = Err (Panic "index out of bounds").
Proof.
  destruct (register_index_out_of_range TestIO test_is_key_down test_getchar
              test_putchar unit silent (fun _ _ => eq_refl) 12 7
              (vm_with unit [tt] io_none) ltac:(unfold NUM_REGISTERS; lia)) as [_ H].
  rewrite H; reflexivity.
Defined.

Lemma mem_read_status_getchar_failure_witness :
  exists vm',
    mem_read TestIO test_is_key_down test_getchar test_putchar unit silent
      KB_STATUS_POS (vm_with unit [tt] io_k) = (vm', Err (IOFailure 0)) /\
    memory vm' KB_STATUS_POS = Z.shiftl 1 15.
Proof.
  destruct (mem_read_status_getchar_failure TestIO test_is_key_down test_getchar
              test_putchar unit silent (fun _ _ => eq_refl) (vm_with unit [tt] io_k)
              io_none io_none (IOFailure 0) eq_refl eq_refl) as (vm' & H1 & H2 & _).
  exists vm'; split; [exact H1 | exact H2].
Defined.

Lemma mem_read_status_value_witness :
  memory (fst (mem_read TestIO test_is_key_down test_getchar test_putchar unit silent
                 KB_STATUS_POS (vm_with unit [tt] io_q))) KB_STATUS_POS = 32768.
Proof.
  assert (R : snd (mem_read TestIO test_is_key_down test_getchar test_putchar unit silent
                     KB_STATUS_POS (vm_with unit [tt] io_q)) = Ok 32768)
    by (vm_compute; reflexivity).
  destruct (mem_read TestIO test_is_key_down test_getchar test_putchar unit silent
              KB_STATUS_POS (vm_with unit [tt] io_q)) as [vm' r] eqn:E.
  cbn [snd] in R; subst r; cbn [fst].
  destruct (mem_read_status_value TestIO test_is_key_down test_getchar test_putchar
              unit silent (fun _ _ => eq_refl) _ _ _ E) as [_ H].
  exact H.
Defined.

Lemma plugin_failure_detaches_registry_witness :
  plugins (fst (notify_plugins TestIO test_is_key_down test_getchar test_putchar unit
                  failing (Event.RunningGet false) (vm_with unit [tt] io_none))) = None.
Proof.
  assert (R : snd (notify_plugins TestIO test_is_key_down test_getchar test_putchar unit
                     failing (Event.RunningGet false) (vm_with unit [tt] io_none))
              = Err (PluginFailure 1))
    by (vm_compute; reflexivity).
  destruct (notify_plugins TestIO test_is_key_down test_getchar test_putchar unit
              failing (Event.RunningGet false) (vm_with unit [tt] io_none))
    as [vm' r] eqn:E.
  cbn [snd] in R; subst r; cbn [fst].
  destruct (plugin_failure_detaches_registry TestIO test_is_key_down test_getchar
              test_putchar unit failing (Event.RunningGet false)
              (vm_with unit [tt] io_none) [tt] vm' (PluginFailure 1) eq_refl E) as [H _].
  exact H.
Defined.

Lemma notify_plugins_in_order_witness :
  plugins (fst (notify_plugins TestIO test_is_key_down test_getchar test_putchar Z
                  ordered (Event.RunningGet true) (vm_with Z [0; 1] io_none))) = Some [0; 5].
Proof.
  destruct (notify_plugins_in_order TestIO test_is_key_down test_getchar test_putchar
              Z ordered (Event.RunningGet true) (vm_with Z [0; 1] io_none) 0 1 0
              (fun x => x) 0 5 eq_refl ltac:(unfold NUM_REGISTERS; lia) eq_refl eq_refl)
    as (vm' & E & H & _).
  rewrite E; exact H.
Defined.
